(** * react-native-video-player: the playback UI state machine

    A shallow embedding of the [VideoPlayer] function component: its
    [useState] cells, the mutable [hideControlsTimer] ref, the host's timer
    queue and subscriptions, and every event handler of the component.

    Conventions of the embedding.
    - A JavaScript [number] is an IEEE-754 binary64 value, so it is a
      primitive float here; [===], [<] and [>] are the float comparisons.
    - A handler is a function [World -> World].  It reads the state cells of
      the render it was created in (the world it is applied to) and queues
      absolute writes, exactly as the closures of a function component do.
    - Callbacks registered by the mount-only effect ([useEffect(..., [])])
      keep the [volumeState] of the first render; it is [mountVolumeState].
    - Calls on collaborators (decoder seek, orientation, immersive mode) are
      appended to a command log; [setTimeout] adds a timer to the host queue.
    The dimension listener works on a [Layout] of its own (the
    [screenDimensions] cell and the calls patched onto the host), beside the
    [World] of the playback state. *)

From Stdlib Require Import Floats Bool List PeanoNat Lia.
From Stdlib Require Import ZArith.
From Stdlib Require String Ascii DecimalString.
Import ListNotations.
Import String.StringSyntax Ascii.AsciiSyntax.
Delimit Scope string_scope with string.
Delimit Scope char_scope with char.

(** ** Data model *)

Definition number : Set := float.

(** [type VolumeStateProps = {isMute: boolean; volume: number | null}] *)
Record VolumeStateProps : Set := {
  isMute : bool;
  volume : option number
}.

(** The optional props the handlers and the render tree consult. *)
Record Props : Set := {
  controls : option bool;
  autoplay : option bool;
  wantFullScreen : option bool;
  forwardBackwardButtons : option bool
}.

(** Truthiness of an optional boolean prop, and [??]. *)
Definition truthy (b : option bool) : bool :=
  match b with Some true => true | _ => false end.

Definition nullish {A : Type} (o : option A) (d : A) : A :=
  match o with Some a => a | None => d end.

Definition TimerId : Set := nat.

(** The three closures the component hands to [setTimeout]. *)
Inductive TimerCallback : Set :=
| HideControls    (* () => setShowControls(false) *)
| ResumePlaying   (* () => setIsPlaying(true) *)
| LockPortrait.   (* () => Orientation.lockToPortrait() *)

Record Timer : Set := {
  timerId : TimerId;
  timerDelay : nat;          (* milliseconds *)
  timerCallback : TimerCallback
}.

(** Calls issued to the collaborators. *)
Inductive Command : Set :=
| Seek (t : number)          (* playerRef.current.seek(t) *)
| ImmersiveOn
| ImmersiveOff
| LockToLandscape
| LockToPortrait.

(** The [useState] cells. *)
Record PlayerState : Set := {
  isRetry : bool;
  isStatusBarHidden : bool;
  isLoading : bool;
  isFullScreen : bool;
  isPlaying : bool;
  isVideoReady : bool;
  videoDuration : number;
  videoSeek : number;
  showControls : bool;
  isSeekBarBusy : bool;
  systemVolume : option number;
  volumeState : VolumeStateProps
}.

(** What lives outside React state: the ref, the timer queue of the host,
    the liveness flag and the subscriptions of the mount effect, and the
    log of commands. *)
Record Host : Set := {
  hideControlsTimer : option TimerId;   (* hideControlsTimer.current *)
  pendingTimers : list Timer;
  nextTimerId : TimerId;
  isActive : bool;
  volumeListener : bool;                (* subscription still registered *)
  unsubscribeDimensions : bool;         (* subscription still registered *)
  mounted : bool;
  commands : list Command
}.

Record World : Set := {
  st : PlayerState;
  host : Host
}.

(** ** Field updates *)

Definition stIsRetry (x : bool) (s : PlayerState) : PlayerState :=
  {| isRetry := x; isStatusBarHidden := isStatusBarHidden s;
     isLoading := isLoading s; isFullScreen := isFullScreen s;
     isPlaying := isPlaying s; isVideoReady := isVideoReady s;
     videoDuration := videoDuration s; videoSeek := videoSeek s;
     showControls := showControls s; isSeekBarBusy := isSeekBarBusy s;
     systemVolume := systemVolume s; volumeState := volumeState s |}.

Definition stIsStatusBarHidden (x : bool) (s : PlayerState) : PlayerState :=
  {| isRetry := isRetry s; isStatusBarHidden := x; isLoading := isLoading s;
     isFullScreen := isFullScreen s; isPlaying := isPlaying s;
     isVideoReady := isVideoReady s; videoDuration := videoDuration s;
     videoSeek := videoSeek s; showControls := showControls s;
     isSeekBarBusy := isSeekBarBusy s; systemVolume := systemVolume s;
     volumeState := volumeState s |}.

Definition stIsLoading (x : bool) (s : PlayerState) : PlayerState :=
  {| isRetry := isRetry s; isStatusBarHidden := isStatusBarHidden s;
     isLoading := x; isFullScreen := isFullScreen s;
     isPlaying := isPlaying s; isVideoReady := isVideoReady s;
     videoDuration := videoDuration s; videoSeek := videoSeek s;
     showControls := showControls s; isSeekBarBusy := isSeekBarBusy s;
     systemVolume := systemVolume s; volumeState := volumeState s |}.

Definition stIsFullScreen (x : bool) (s : PlayerState) : PlayerState :=
  {| isRetry := isRetry s; isStatusBarHidden := isStatusBarHidden s;
     isLoading := isLoading s; isFullScreen := x; isPlaying := isPlaying s;
     isVideoReady := isVideoReady s; videoDuration := videoDuration s;
     videoSeek := videoSeek s; showControls := showControls s;
     isSeekBarBusy := isSeekBarBusy s; systemVolume := systemVolume s;
     volumeState := volumeState s |}.

Definition stIsPlaying (x : bool) (s : PlayerState) : PlayerState :=
  {| isRetry := isRetry s; isStatusBarHidden := isStatusBarHidden s;
     isLoading := isLoading s; isFullScreen := isFullScreen s;
     isPlaying := x; isVideoReady := isVideoReady s;
     videoDuration := videoDuration s; videoSeek := videoSeek s;
     showControls := showControls s; isSeekBarBusy := isSeekBarBusy s;
     systemVolume := systemVolume s; volumeState := volumeState s |}.

Definition stIsVideoReady (x : bool) (s : PlayerState) : PlayerState :=
  {| isRetry := isRetry s; isStatusBarHidden := isStatusBarHidden s;
     isLoading := isLoading s; isFullScreen := isFullScreen s;
     isPlaying := isPlaying s; isVideoReady := x;
     videoDuration := videoDuration s; videoSeek := videoSeek s;
     showControls := showControls s; isSeekBarBusy := isSeekBarBusy s;
     systemVolume := systemVolume s; volumeState := volumeState s |}.

Definition stVideoDuration (x : number) (s : PlayerState) : PlayerState :=
  {| isRetry := isRetry s; isStatusBarHidden := isStatusBarHidden s;
     isLoading := isLoading s; isFullScreen := isFullScreen s;
     isPlaying := isPlaying s; isVideoReady := isVideoReady s;
     videoDuration := x; videoSeek := videoSeek s;
     showControls := showControls s; isSeekBarBusy := isSeekBarBusy s;
     systemVolume := systemVolume s; volumeState := volumeState s |}.

Definition stVideoSeek (x : number) (s : PlayerState) : PlayerState :=
  {| isRetry := isRetry s; isStatusBarHidden := isStatusBarHidden s;
     isLoading := isLoading s; isFullScreen := isFullScreen s;
     isPlaying := isPlaying s; isVideoReady := isVideoReady s;
     videoDuration := videoDuration s; videoSeek := x;
     showControls := showControls s; isSeekBarBusy := isSeekBarBusy s;
     systemVolume := systemVolume s; volumeState := volumeState s |}.

Definition stShowControls (x : bool) (s : PlayerState) : PlayerState :=
  {| isRetry := isRetry s; isStatusBarHidden := isStatusBarHidden s;
     isLoading := isLoading s; isFullScreen := isFullScreen s;
     isPlaying := isPlaying s; isVideoReady := isVideoReady s;
     videoDuration := videoDuration s; videoSeek := videoSeek s;
     showControls := x; isSeekBarBusy := isSeekBarBusy s;
     systemVolume := systemVolume s; volumeState := volumeState s |}.

Definition stIsSeekBarBusy (x : bool) (s : PlayerState) : PlayerState :=
  {| isRetry := isRetry s; isStatusBarHidden := isStatusBarHidden s;
     isLoading := isLoading s; isFullScreen := isFullScreen s;
     isPlaying := isPlaying s; isVideoReady := isVideoReady s;
     videoDuration := videoDuration s; videoSeek := videoSeek s;
     showControls := showControls s; isSeekBarBusy := x;
     systemVolume := systemVolume s; volumeState := volumeState s |}.

Definition stSystemVolume (x : option number) (s : PlayerState) : PlayerState :=
  {| isRetry := isRetry s; isStatusBarHidden := isStatusBarHidden s;
     isLoading := isLoading s; isFullScreen := isFullScreen s;
     isPlaying := isPlaying s; isVideoReady := isVideoReady s;
     videoDuration := videoDuration s; videoSeek := videoSeek s;
     showControls := showControls s; isSeekBarBusy := isSeekBarBusy s;
     systemVolume := x; volumeState := volumeState s |}.

Definition stVolumeState (x : VolumeStateProps) (s : PlayerState) : PlayerState :=
  {| isRetry := isRetry s; isStatusBarHidden := isStatusBarHidden s;
     isLoading := isLoading s; isFullScreen := isFullScreen s;
     isPlaying := isPlaying s; isVideoReady := isVideoReady s;
     videoDuration := videoDuration s; videoSeek := videoSeek s;
     showControls := showControls s; isSeekBarBusy := isSeekBarBusy s;
     systemVolume := systemVolume s; volumeState := x |}.

Definition with_hideControlsTimer (x : option TimerId) (h : Host) : Host :=
  {| hideControlsTimer := x; pendingTimers := pendingTimers h;
     nextTimerId := nextTimerId h; isActive := isActive h;
     volumeListener := volumeListener h;
     unsubscribeDimensions := unsubscribeDimensions h; mounted := mounted h;
     commands := commands h |}.

Definition with_pendingTimers (x : list Timer) (h : Host) : Host :=
  {| hideControlsTimer := hideControlsTimer h; pendingTimers := x;
     nextTimerId := nextTimerId h; isActive := isActive h;
     volumeListener := volumeListener h;
     unsubscribeDimensions := unsubscribeDimensions h; mounted := mounted h;
     commands := commands h |}.

Definition with_nextTimerId (x : TimerId) (h : Host) : Host :=
  {| hideControlsTimer := hideControlsTimer h;
     pendingTimers := pendingTimers h; nextTimerId := x;
     isActive := isActive h; volumeListener := volumeListener h;
     unsubscribeDimensions := unsubscribeDimensions h; mounted := mounted h;
     commands := commands h |}.

Definition with_isActive (x : bool) (h : Host) : Host :=
  {| hideControlsTimer := hideControlsTimer h;
     pendingTimers := pendingTimers h; nextTimerId := nextTimerId h;
     isActive := x; volumeListener := volumeListener h;
     unsubscribeDimensions := unsubscribeDimensions h; mounted := mounted h;
     commands := commands h |}.

Definition with_volumeListener (x : bool) (h : Host) : Host :=
  {| hideControlsTimer := hideControlsTimer h;
     pendingTimers := pendingTimers h; nextTimerId := nextTimerId h;
     isActive := isActive h; volumeListener := x;
     unsubscribeDimensions := unsubscribeDimensions h; mounted := mounted h;
     commands := commands h |}.

Definition with_unsubscribeDimensions (x : bool) (h : Host) : Host :=
  {| hideControlsTimer := hideControlsTimer h;
     pendingTimers := pendingTimers h; nextTimerId := nextTimerId h;
     isActive := isActive h; volumeListener := volumeListener h;
     unsubscribeDimensions := x; mounted := mounted h;
     commands := commands h |}.

Definition with_mounted (x : bool) (h : Host) : Host :=
  {| hideControlsTimer := hideControlsTimer h;
     pendingTimers := pendingTimers h; nextTimerId := nextTimerId h;
     isActive := isActive h; volumeListener := volumeListener h;
     unsubscribeDimensions := unsubscribeDimensions h; mounted := x;
     commands := commands h |}.

Definition with_commands (x : list Command) (h : Host) : Host :=
  {| hideControlsTimer := hideControlsTimer h;
     pendingTimers := pendingTimers h; nextTimerId := nextTimerId h;
     isActive := isActive h; volumeListener := volumeListener h;
     unsubscribeDimensions := unsubscribeDimensions h; mounted := mounted h;
     commands := x |}.

(** State setters as the component names them. *)
Definition onSt (f : PlayerState -> PlayerState) (w : World) : World :=
  {| st := f (st w); host := host w |}.

Definition onHost (f : Host -> Host) (w : World) : World :=
  {| st := st w; host := f (host w) |}.

Definition setIsRetry (x : bool) := onSt (stIsRetry x).
Definition setIsStatusBarHidden (x : bool) := onSt (stIsStatusBarHidden x).
Definition setIsLoading (x : bool) := onSt (stIsLoading x).
Definition setIsFullScreen (x : bool) := onSt (stIsFullScreen x).
Definition setIsPlaying (x : bool) := onSt (stIsPlaying x).
Definition setisVideaoReady (x : bool) := onSt (stIsVideoReady x).
Definition setVideoDuration (x : number) := onSt (stVideoDuration x).
Definition setVideoSeek (x : number) := onSt (stVideoSeek x).
Definition setShowControls (x : bool) := onSt (stShowControls x).
Definition setIsSeekBarBusy (x : bool) := onSt (stIsSeekBarBusy x).
Definition setSystemVolume (x : option number) := onSt (stSystemVolume x).
Definition setVolumeState (x : VolumeStateProps) := onSt (stVolumeState x).

(** ** Host services *)

Definition issue (c : Command) : World -> World :=
  onHost (fun h => with_commands (commands h ++ [c]) h).

(** [setTimeout(cb, delay)]: queues the timer and returns its handle.
    Handles are positive and never reused. *)
Definition setTimeout (cb : TimerCallback) (delay : nat) (w : World)
  : TimerId * World :=
  let id := nextTimerId (host w) in
  let t := {| timerId := id; timerDelay := delay; timerCallback := cb |} in
  (id, onHost (fun h =>
         with_nextTimerId (S id) (with_pendingTimers (pendingTimers h ++ [t]) h)) w).

Definition keepOthers (id : TimerId) (t : Timer) : bool :=
  negb (timerId t =? id).

(** [clearTimeout(id)]: a handle that is not pending is ignored. *)
Definition clearTimeout (id : TimerId) : World -> World :=
  onHost (fun h => with_pendingTimers (filter (keepOthers id) (pendingTimers h)) h).

(** Truthiness of [hideControlsTimer.current]: [null] and [0] are falsy. *)
Definition handleTruthy (o : option TimerId) : bool :=
  match o with Some (S _) => true | _ => false end.

Definition clearTimeoutRef (o : option TimerId) (w : World) : World :=
  match o with Some id => clearTimeout id w | None => w end.

Definition setHideControlsTimer (o : option TimerId) : World -> World :=
  onHost (with_hideControlsTimer o).

(** [playerRef.current] is the mounted [Video]; the component renders it in
    every render but the retry prompt. *)
Definition playerRef_current (w : World) : bool := negb (isRetry (st w)).

(** [playerRef.current?.seek(t)] *)
Definition seek (t : number) (w : World) : World :=
  if playerRef_current w then issue (Seek t) w else w.

(** What the render passes to the decoder:
    [paused={!isPlaying} muted={isMute} volume={volume ?? 0}]. *)
Definition pausedProp (w : World) : bool := negb (isPlaying (st w)).
Definition mutedProp (w : World) : bool := isMute (volumeState (st w)).
Definition volumeProp (w : World) : number :=
  nullish (volume (volumeState (st w))) 0%float.

(** ** Mount, effects and cleanup *)

(** [volumeState] of the first render, captured by the closures that the
    mount-only effect and the focus effect create. *)
Definition mountVolumeState : VolumeStateProps :=
  {| isMute := false; volume := None |}.

(** The world after the first render and the run of the mount effect. *)
Definition mount (p : Props) : World :=
  {| st := {| isRetry := false; isStatusBarHidden := false; isLoading := true;
              isFullScreen := false; isPlaying := nullish (autoplay p) true;
              isVideoReady := false; videoDuration := 0%float;
              videoSeek := 0%float; showControls := false;
              isSeekBarBusy := false; systemVolume := None;
              volumeState := mountVolumeState |};
     host := {| hideControlsTimer := None; pendingTimers := [];
                nextTimerId := 1; isActive := true; volumeListener := true;
                unsubscribeDimensions := true; mounted := true;
                commands := [] |} |}.

(** [SystemSetting.getVolume().then(volume => ...)] of the mount effect. *)
Definition getVolumeResolved (v : number) (w : World) : World :=
  if isActive (host w) then
    let w := setSystemVolume (Some v) w in
    setVolumeState {| isMute := isMute mountVolumeState; volume := Some v |} w
  else w.

(** The callback given to [SystemSetting.addVolumeListener]. *)
Definition volumeListenerCallback (v : number) (w : World) : World :=
  setVolumeState {| isMute := isMute mountVolumeState; volume := Some v |} w.

(** The promise callback of the focus effect; [alive] is the [isActive]
    flag of the focus it belongs to. *)
Definition focusVolumeResolved (alive : bool) (v : number) (w : World) : World :=
  if alive then
    setVolumeState {| isMute := isMute mountVolumeState; volume := Some v |} w
  else w.

(** The cleanup returned by the mount effect. *)
Definition cleanup (w : World) : World :=
  let w := onHost (with_isActive false) w in
  let w := onHost (with_volumeListener false) w in
  let w := if handleTruthy (hideControlsTimer (host w))
           then clearTimeoutRef (hideControlsTimer (host w)) w else w in
  onHost (with_unsubscribeDimensions false) w.

Definition unmount (w : World) : World :=
  onHost (with_mounted false) (cleanup w).

(** ** Event payloads *)

Record OnProgressData : Set := {
  currentTime : number;
  seekableDuration : number
}.

Record OnLoadData : Set := { duration : number }.

Record OnBufferData : Set := { isBuffering : bool }.

(** [number | number[]]; the slider reports one entry per thumb, so an
    array value has a first entry. *)
Inductive SliderValue : Set :=
| Scalar (v : number)
| Values (v0 : number) (rest : list number).

(** ** Handlers *)

Definition onVideoError (w : World) : World := setIsRetry true w.

Definition handlePlayPause (w : World) : World :=
  let s := st w in
  if (videoSeek s =? 1)%float then
    let w := setVideoSeek 0%float w in
    let w := seek 0%float w in
    snd (setTimeout ResumePlaying 100 w)
  else setIsPlaying (negb (isPlaying s)) w.

Definition handleFullScreen (w : World) : World :=
  let s := st w in
  if isFullScreen s then
    let w := issue ImmersiveOff w in
    let w := setIsFullScreen false w in
    let w := setIsStatusBarHidden false w in
    snd (setTimeout LockPortrait 100 w)
  else
    let w := setIsFullScreen true w in
    let w := issue LockToLandscape w in
    let w := setIsStatusBarHidden true w in
    issue ImmersiveOn w.

Definition onProgress (data : OnProgressData) (w : World) : World :=
  let s := st w in
  let w := if isLoading s then setIsLoading false w else w in
  if negb (isSeekBarBusy s)
  then setVideoSeek (currentTime data / seekableDuration data)%float w
  else w.

Definition onEnd (w : World) : World :=
  setIsPlaying false (setVideoSeek 1%float w).

Definition videoAreaClicked (p : Props) (w : World) : World :=
  let s := st w in
  let justClicked := false in
  if truthy (controls p) then
    if negb justClicked then
      if negb (showControls s) then
        let w := setShowControls true w in
        let w := if handleTruthy (hideControlsTimer (host w))
                 then clearTimeoutRef (hideControlsTimer (host w)) w else w in
        let (id, w) := setTimeout HideControls 3000 w in
        setHideControlsTimer (Some id) w
      else setShowControls false w
    else w
  else w.

Definition onSeekBarChange (val : SliderValue) (w : World) : World :=
  let s := st w in
  match val with
  | Values v0 _ =>
      let w := seek (v0 * videoDuration s)%float w in
      setVideoSeek v0 w
  | Scalar _ => w
  end.

Definition onLoad (data : OnLoadData) (w : World) : World :=
  let w := setVideoDuration (duration data) w in
  if playerRef_current w then issue (Seek 0%float) w else w.

Definition onTouchStart (p : Props) (w : World) : World :=
  if handleTruthy (hideControlsTimer (host w)) then
    if truthy (controls p)
    then clearTimeoutRef (hideControlsTimer (host w)) w else w
  else w.

Definition onTouchEnd (p : Props) (w : World) : World :=
  if truthy (controls p) then
    let (id, w) := setTimeout HideControls 3000 w in
    setHideControlsTimer (Some id) w
  else w.

Definition onSeekBarSlidingStart (w : World) : World := setIsSeekBarBusy true w.

Definition onSeekBarSlidingEnd (w : World) : World := setIsSeekBarBusy false w.

Definition seekForward (w : World) : World :=
  let s := st w in
  let newCurrentTime := (videoSeek s * videoDuration s + 10)%float in
  let newCurrentSeekValue := (newCurrentTime / videoDuration s)%float in
  let '(newCurrentTime, newCurrentSeekValue) :=
    if (videoDuration s <? newCurrentTime)%float
    then (videoDuration s, videoDuration s)
    else (newCurrentTime, newCurrentSeekValue) in
  let w := seek newCurrentTime w in
  setVideoSeek newCurrentSeekValue w.

Definition seekBackward (w : World) : World :=
  let s := st w in
  let newCurrentTime := (videoSeek s * videoDuration s - 10)%float in
  let newCurrentSeekValue := (newCurrentTime / videoDuration s)%float in
  let '(newCurrentTime, newCurrentSeekValue) :=
    if (newCurrentTime <? 0)%float
    then (0%float, 0%float)
    else (newCurrentTime, newCurrentSeekValue) in
  let w := seek newCurrentTime w in
  setVideoSeek newCurrentSeekValue w.

Definition toggleMuteButton (w : World) : World :=
  let s := st w in
  if negb (isMute (volumeState s)) then
    setVolumeState {| isMute := negb (isMute (volumeState s));
                      volume := Some 0%float |} w
  else
    setVolumeState {| isMute := negb (isMute (volumeState s));
                      volume := systemVolume s |} w.

Definition onReady (w : World) : World :=
  let w := setisVideaoReady true w in
  let w := setShowControls true w in
  let (id, w) := setTimeout HideControls 3000 w in
  setHideControlsTimer (Some id) w.

Definition onBuffer (data : OnBufferData) (w : World) : World :=
  let s := st w in
  if (isBuffering data && negb (isLoading s))
     || (negb (isBuffering data) && isLoading s && isVideoReady s)
  then setIsLoading true w
  else w.

Definition onRetryClick (w : World) : World := setIsRetry false w.

(** ** Timers firing *)

Definition runTimerCallback (cb : TimerCallback) (w : World) : World :=
  match cb with
  | HideControls => setShowControls false w
  | ResumePlaying => setIsPlaying true w
  | LockPortrait => issue LockToPortrait w
  end.

Definition findTimer (id : TimerId) (w : World) : option Timer :=
  find (fun t => timerId t =? id) (pendingTimers (host w)).

(** The host fires a pending timer: it leaves the queue and its callback
    runs.  The callbacks consult no liveness flag. *)
Definition fireTimer (id : TimerId) (w : World) : World :=
  match findTimer id w with
  | Some t => runTimerCallback (timerCallback t) (clearTimeout id w)
  | None => w
  end.

(** Pending auto-hide timers. *)
Definition isHideTimer (t : Timer) : bool :=
  match timerCallback t with HideControls => true | _ => false end.

Definition pendingHideTimers (w : World) : list Timer :=
  filter isHideTimer (pendingTimers (host w)).

(** ** The event loop *)

Inductive Event : Set :=
| GetVolumeResolved (v : number)
| FocusVolumeResolved (alive : bool) (v : number)
| VolumeChanged (v : number)
| VideoError
| VideoLoad (data : OnLoadData)
| VideoReadyForDisplay
| VideoProgress (data : OnProgressData)
| VideoEnd
| VideoBuffer (data : OnBufferData)
| VideoAreaPress
| PlayPausePress
| SeekForwardPress
| SeekBackwardPress
| ControlsTouchStart
| ControlsTouchEnd
| SliderValueChange (val : SliderValue)
| SliderSlidingStart
| SliderSlidingComplete
| MutePress
| FullScreenPress
| RetryPress
| TimerFired (id : TimerId)
| Unmount.

(** Is the [Video] element (and the touchable around it) in the tree? *)
Definition videoRendered (w : World) : bool :=
  mounted (host w) && negb (isRetry (st w)).

(** Is the control overlay in the tree ([controls && showControls])? *)
Definition controlsRendered (p : Props) (w : World) : bool :=
  videoRendered w && truthy (controls p) && showControls (st w).

Definition guarded (g : bool) (f : World -> World) (w : World) : World :=
  if g then f w else w.

(** One turn of the event queue: the event reaches its handler when the
    element carrying the handler is rendered (or, for the host callbacks,
    when the subscription or timer is still registered). *)
Definition step (p : Props) (e : Event) (w : World) : World :=
  match e with
  | GetVolumeResolved v => getVolumeResolved v w
  | FocusVolumeResolved alive v => focusVolumeResolved alive v w
  | VolumeChanged v => guarded (volumeListener (host w)) (volumeListenerCallback v) w
  | VideoError => guarded (videoRendered w) onVideoError w
  | VideoLoad d => guarded (videoRendered w) (onLoad d) w
  | VideoReadyForDisplay => guarded (videoRendered w) onReady w
  | VideoProgress d => guarded (videoRendered w) (onProgress d) w
  | VideoEnd => guarded (videoRendered w) onEnd w
  | VideoBuffer d => guarded (videoRendered w) (onBuffer d) w
  | VideoAreaPress => guarded (videoRendered w) (videoAreaClicked p) w
  | PlayPausePress => guarded (controlsRendered p w) handlePlayPause w
  | SeekForwardPress =>
      guarded (controlsRendered p w && nullish (forwardBackwardButtons p) true)
              seekForward w
  | SeekBackwardPress =>
      guarded (controlsRendered p w && nullish (forwardBackwardButtons p) true)
              seekBackward w
  | ControlsTouchStart => guarded (controlsRendered p w) (onTouchStart p) w
  | ControlsTouchEnd => guarded (controlsRendered p w) (onTouchEnd p) w
  | SliderValueChange v => guarded (controlsRendered p w) (onSeekBarChange v) w
  | SliderSlidingStart => guarded (controlsRendered p w) onSeekBarSlidingStart w
  | SliderSlidingComplete => guarded (controlsRendered p w) onSeekBarSlidingEnd w
  | MutePress => guarded (controlsRendered p w) toggleMuteButton w
  | FullScreenPress =>
      guarded (controlsRendered p w && nullish (wantFullScreen p) true)
              handleFullScreen w
  | RetryPress => guarded (mounted (host w) && isRetry (st w)) onRetryClick w
  | TimerFired id => fireTimer id w
  | Unmount => guarded (mounted (host w)) unmount w
  end.

(** Events are handled in order of arrival, one render between two. *)
Definition run (p : Props) (es : list Event) (w : World) : World :=
  fold_left (fun w e => step p e w) es w.

Definition reachable (p : Props) (w : World) : Prop :=
  exists es, w = run p es (mount p).

(** Props with the control overlay enabled, everything else defaulted. *)
Definition withControls : Props :=
  {| controls := Some true; autoplay := None; wantFullScreen := None;
     forwardBackwardButtons := None |}.

(** ** Layout: the dimension listener *)

(** [type ScreenDimensionsObject = {screenHeight: number; screenWidth: number}] *)
Record ScreenDimensionsObject : Set := {
  screenHeight : number;
  screenWidth : number
}.

(** [e.screen] of a dimension-change event. *)
Record ScaledSize : Set := {
  width : number;
  height : number
}.

(** The style object patched onto the root element. *)
Record RootStyle : Set := {
  backgroundColor : String.string;
  paddingVertical : option number
}.

(** Imperative calls on the host's root element and scroll view. *)
Inductive NativeCall : Set :=
| RootSetNativeProps (style : RootStyle)
    (* rootElementRef.current.setNativeProps({style}) *)
| ScrollSetNativeProps (contentContainerFlex : option number) (scrollEnabled : bool)
    (* scrollViewRef.current.setNativeProps({contentContainerStyle?, scrollEnabled}) *)
| ScrollTo (x y : number) (animated : bool).

(** What the listener closes over or queries: the layout props, whether the
    two refs point at an element, [Platform.OS], [DeviceInfo.hasNotch()],
    and the screen width read when the module is loaded. *)
Record LayoutEnv : Set := {
  props_height : option number;
  rootViewBgColor : option String.string;
  androidPaddingVertical : option number;
  rootElementRef : bool;
  scrollViewRef : bool;
  Platform_OS : String.string;
  hasNotch : bool;
  screenWidthAtLoad : number
}.

(** The [screenDimensions] cell and the log of calls on the host. *)
Record Layout : Set := {
  screenDimensions : ScreenDimensionsObject;
  nativeCalls : list NativeCall
}.

Definition setScreenDimensions (d : ScreenDimensionsObject) (l : Layout) : Layout :=
  {| screenDimensions := d; nativeCalls := nativeCalls l |}.

(** [ref?.current?.method(...)]: the call is made when the ref is set. *)
Definition callOn (ref : bool) (c : NativeCall) (l : Layout) : Layout :=
  if ref
  then {| screenDimensions := screenDimensions l;
          nativeCalls := nativeCalls l ++ [c] |}
  else l.

(** [useState({screenHeight: height ?? 300, screenWidth: width})] *)
Definition mountLayout (env : LayoutEnv) : Layout :=
  {| screenDimensions :=
       {| screenHeight := nullish (props_height env) 300%float;
          screenWidth := screenWidthAtLoad env |};
     nativeCalls := [] |}.

Definition isAndroid (env : LayoutEnv) : bool :=
  String.eqb (Platform_OS env) "android"%string.

(** The callback given to [Dimensions.addEventListener('change', ...)];
    [active] is the [isActive] flag of the mount effect. *)
Definition dimensionsListener (env : LayoutEnv) (active : bool) (e : ScaledSize)
    (l : Layout) : Layout :=
  let finalHeight := height e in
  let finalWidth := width e in
  let '(finalHeight, finalWidth, l) :=
    if (width e <? height e)%float then
      let finalHeight := nullish (props_height env) 300%float in
      let rootStyle :=
        {| backgroundColor := nullish (rootViewBgColor env) "#fff"%string;
           paddingVertical :=
             if isAndroid env
             then Some (nullish (androidPaddingVertical env) 48%float)
             else None |} in
      let l := callOn (rootElementRef env) (RootSetNativeProps rootStyle) l in
      let l := callOn (scrollViewRef env) (ScrollSetNativeProps None true) l in
      (finalHeight, finalWidth, l)
    else
      let l := callOn (scrollViewRef env)
                 (ScrollSetNativeProps (Some 1%float) false) l in
      let l := callOn (scrollViewRef env) (ScrollTo 0%float 0%float false) l in
      let rootStyle :=
        {| backgroundColor := nullish (rootViewBgColor env) "#000"%string;
           paddingVertical := if isAndroid env then Some 0%float else None |} in
      let l := callOn (rootElementRef env) (RootSetNativeProps rootStyle) l in
      let finalWidth := if hasNotch env then (width e - 75)%float
                        else finalWidth in
      (finalHeight, finalWidth, l) in
  if active
  then setScreenDimensions
         {| screenWidth := finalWidth; screenHeight := finalHeight |} l
  else l.

(** A dimension event reaches the listener while the subscription is
    registered. *)
Definition dimensionsChanged (env : LayoutEnv) (e : ScaledSize) (w : World)
    (l : Layout) : Layout :=
  if unsubscribeDimensions (host w)
  then dimensionsListener env (isActive (host w)) e l
  else l.

(** The last [scrollEnabled] value patched onto the scroll view, if any. *)
Fixpoint lastScrollEnabled (cs : list NativeCall) (acc : option bool) : option bool :=
  match cs with
  | [] => acc
  | ScrollSetNativeProps _ b :: cs => lastScrollEnabled cs (Some b)
  | _ :: cs => lastScrollEnabled cs acc
  end.

(** ** Readings of the command log *)

(** Whether immersive mode is on after the commands issued so far. *)
Fixpoint immersiveAfter (cs : list Command) (on : bool) : bool :=
  match cs with
  | [] => on
  | ImmersiveOn :: cs => immersiveAfter cs true
  | ImmersiveOff :: cs => immersiveAfter cs false
  | _ :: cs => immersiveAfter cs on
  end.

Definition isSeek (c : Command) : bool :=
  match c with Seek _ => true | _ => false end.

(** Events that do not come from a timer or from the promise of a focus
    effect. *)
Definition isSubscriptionEvent (e : Event) : bool :=
  match e with
  | TimerFired _ | FocusVolumeResolved _ _ => false
  | _ => true
  end.

Definition isGetVolumeResolved (e : Event) : bool :=
  match e with GetVolumeResolved _ => true | _ => false end.

Definition isVideoLoad (e : Event) : bool :=
  match e with VideoLoad _ => true | _ => false end.

(** Props without the [controls] flag. *)
Definition controlsOff (p : Props) : Prop := truthy (controls p) = false.

(** Every optional prop left out. *)
Definition withoutControls : Props :=
  {| controls := None; autoplay := None; wantFullScreen := None;
     forwardBackwardButtons := None |}.

(** The last style patched onto the root element, if any. *)
Fixpoint lastRootStyle (cs : list NativeCall) (acc : option RootStyle)
  : option RootStyle :=
  match cs with
  | [] => acc
  | RootSetNativeProps s :: cs => lastRootStyle cs (Some s)
  | _ :: cs => lastRootStyle cs acc
  end.

(** ** The time formatter *)

(** [msToTime] is written with built-ins of the language: [Math.floor],
    the remainder [%], [toFixed(0)], [parseInt] and the conversion of a
    number to text.  They are embedded on the exact value of a float, a
    mantissa times a power of two, as ECMAScript defines them.  The two
    that print a number return [None] where the language switches to the
    shortest round-trip digits or to exponent notation, which are not
    embedded: [Number_toString] on values that are not integers of
    magnitude below 2^53, [toFixed0] from 10^21 on. *)

Definition Z2float (z : Z) : float :=
  SF2Prim (binary_normalize prec emax z 0 false).

(** [Math.floor(x)] *)
Definition Math_floor (x : float) : float :=
  match Prim2SF x with
  | S754_finite s m e =>
      if (0 <=? e)%Z then x
      else Z2float ((if s then Zneg m else Zpos m) / 2 ^ (- e))%Z
  | _ => x
  end.

(** [n % d]: the remainder that keeps the sign of the dividend. *)
Definition js_rem (n d : float) : float :=
  match Prim2SF n, Prim2SF d with
  | S754_nan, _ | _, S754_nan => nan
  | S754_infinity _, _ => nan
  | _, S754_zero _ => nan
  | S754_zero _, _ => n
  | _, S754_infinity _ => n
  | S754_finite sn mn en, S754_finite _ md ed =>
      let e := Z.min en ed in
      let r := ((Zpos mn * 2 ^ (en - e)) mod (Zpos md * 2 ^ (ed - e)))%Z in
      SF2Prim (binary_normalize prec emax (if sn then - r else r)%Z e sn)
  end.

(** Decimal digits of a natural number. *)
Definition decimal (z : Z) : String.string :=
  DecimalString.NilZero.string_of_uint (N.to_uint (Z.to_N z)).

(** The text of a number, as in ['0' + hours] and [hours.toString()]. *)
Definition Number_toString (x : float) : option String.string :=
  match Prim2SF x with
  | S754_nan => Some "NaN"%string
  | S754_infinity s => Some (if s then "-Infinity" else "Infinity")%string
  | S754_zero _ => Some "0"%string
  | S754_finite s m e =>
      if (e =? 0)%Z && (Zpos m <? 2 ^ 53)%Z
      then Some (String.append (if s then "-"%string else String.EmptyString) (decimal (Zpos m)))
      else if (e <? 0)%Z && (Zpos m mod 2 ^ (- e) =? 0)%Z
      then Some (String.append (if s then "-"%string else String.EmptyString)
                               (decimal (Zpos m / 2 ^ (- e))))
      else None
  end.

(** [x.toFixed(0)]: the nearest integer, the larger one on a tie, after the
    sign has been set aside. *)
Definition toFixed0 (x : float) : option String.string :=
  match Prim2SF x with
  | S754_nan => Some "NaN"%string
  | S754_infinity s => Some (if s then "-Infinity" else "Infinity")%string
  | S754_zero _ => Some "0"%string
  | S754_finite s m e =>
      if (1e21 <=? abs x)%float then None
      else
        let n := if (0 <=? e)%Z then (Zpos m * 2 ^ e)%Z
                 else ((2 * Zpos m + 2 ^ (- e)) / 2 ^ (- e + 1))%Z in
        Some (String.append (if s then "-"%string else String.EmptyString) (decimal n))
  end.

(** [parseInt(s)] with the default radix, on ASCII text: leading white
    space, a sign, a [0x] prefix, then the longest run of digits. *)
Definition isWhiteSpace (c : Ascii.ascii) : bool :=
  let n := Ascii.nat_of_ascii c in
  ((9 <=? n) && (n <=? 13)) || (n =? 32).

Fixpoint skipWhiteSpace (s : String.string) : String.string :=
  match s with
  | String.String c r => if isWhiteSpace c then skipWhiteSpace r else s
  | String.EmptyString => s
  end.

Definition digitValue (c : Ascii.ascii) : option Z :=
  let n := Z.of_nat (Ascii.nat_of_ascii c) in
  if ((48 <=? n) && (n <=? 57))%Z then Some (n - 48)%Z
  else if ((97 <=? n) && (n <=? 122))%Z then Some (n - 87)%Z
  else if ((65 <=? n) && (n <=? 90))%Z then Some (n - 55)%Z
  else None.

(** The longest prefix of digits of the radix, as a number; [None] when it
    is empty. *)
Fixpoint digitsValue (radix : Z) (s : String.string) (acc : option Z) : option Z :=
  match s with
  | String.String c r =>
      match digitValue c with
      | Some d => if (d <? radix)%Z
                  then digitsValue radix r (Some (nullish acc 0 * radix + d)%Z)
                  else acc
      | None => acc
      end
  | String.EmptyString => acc
  end.

Definition parseInt (s : String.string) : float :=
  let s := skipWhiteSpace s in
  let '(neg, s) :=
    match s with
    | String.String "-"%char r => (true, r)
    | String.String "+"%char r => (false, r)
    | _ => (false, s)
    end in
  let '(radix, s) :=
    match s with
    | String.String "0"%char (String.String "x"%char r) => (16%Z, r)
    | String.String "0"%char (String.String "X"%char r) => (16%Z, r)
    | _ => (10%Z, s)
    end in
  match digitsValue radix s None with
  | None => nan
  | Some 0%Z => if neg then (-0)%float else 0%float
  | Some z => Z2float (if neg then - z else z)
  end.

(** String concatenation where one side may be outside the embedding. *)
Definition strcat (a b : option String.string) : option String.string :=
  match a, b with
  | Some x, Some y => Some (String.append x y)
  | _, _ => None
  end.

Definition msToTime (seconds : number) : option String.string :=
  let minutes := Math_floor (seconds / 60)%float in
  let hours := Math_floor (js_rem (seconds / (60 * 60)) 24)%float in
  let finalTime := Some String.EmptyString in
  let finalTime :=
    if (0 <? hours)%float
    then strcat (if (hours <? 10)%float
                 then strcat (Some "0"%string) (Number_toString hours)
                 else Number_toString hours)
                (Some ":"%string)
    else finalTime in
  let finalTime :=
    if (minutes <=? 0)%float then strcat finalTime (Some "00:"%string)
    else if (0 <? minutes)%float
    then strcat finalTime
           (strcat (if (minutes <? 10)%float
                    then strcat (Some "0"%string) (Number_toString minutes)
                    else Number_toString minutes)
                   (Some ":"%string))
    else finalTime in
  let sec := js_rem seconds 60%float in
  strcat finalTime
    (match toFixed0 sec with
     | Some t => if (parseInt t <? 10)%float
                 then Some (String.append "0" t)
                 else Some t
     | None => None
     end).

(** Whole seconds as text, with integer division: an hours field when there
    is a full hour, the minutes counted from the start, the seconds within
    the minute; a field below 10 gets a leading zero. *)
Definition pad2 (k : Z) : String.string :=
  String.append (if (k <? 10)%Z then "0"%string else String.EmptyString)
                (decimal k).

Definition wholeSecondsText (n : Z) : String.string :=
  String.append
    (if (0 <? n / 3600)%Z then String.append (pad2 (n / 3600)) ":"
     else String.EmptyString)
    (String.append (pad2 (n / 60)) (String.append ":" (pad2 (n mod 60)))).

(** Half a second past a whole second: the seconds field is rounded up and
    nothing is carried into the minutes. *)
Definition halfSecondText (n : Z) : String.string :=
  String.append (pad2 (n / 60)) (String.append ":" (pad2 (n mod 60 + 1))).

Definition agrees (t : option String.string) (s : String.string) : bool :=
  match t with Some x => String.eqb x s | None => false end.

(** [f] holds on the [fuel] integers from [z] on. *)
Fixpoint allFrom (f : Z -> bool) (fuel : nat) (z : Z) : bool :=
  match fuel with
  | O => true
  | S k => f z && allFrom f k (z + 1)%Z
  end.

(** The two time labels of the control bar:
    [msToTime(videoSeek * videoDuration)] and [msToTime(videoDuration)]. *)
Definition positionText (w : World) : option String.string :=
  msToTime (videoSeek (st w) * videoDuration (st w))%float.

Definition durationText (w : World) : option String.string :=
  msToTime (videoDuration (st w)).

(** ** Predicates on worlds *)

(** Handles are fresh: every pending timer and the handle kept in the ref
    were allocated before [nextTimerId], and the ref only ever holds the
    handle of an auto-hide timer. *)
Record wf (w : World) : Prop := {
  wf_next : 1 <= nextTimerId (host w);
  wf_ids : Forall (fun t => timerId t < nextTimerId (host w))
                  (pendingTimers (host w));
  wf_ref : forall id, hideControlsTimer (host w) = Some id ->
                      1 <= id < nextTimerId (host w);
  wf_ref_hide : forall id t, hideControlsTimer (host w) = Some id ->
                  In t (pendingTimers (host w)) -> timerId t = id ->
                  timerCallback t = HideControls
}.

(** Nothing is pending after unmount. *)
Definition unmount_releases_every_timer (w : World) : Prop :=
  pendingTimers (host (unmount w)) = [].

(** [onReady] clears the Loading flag. *)
Definition onReady_clears_loading (w : World) : Prop :=
  isLoading (st (onReady w)) = false.

(** The progress-driven update never sets the fraction to NaN. *)
Definition onProgress_never_NaN (data : OnProgressData) (w : World) : Prop :=
  is_nan (videoSeek (st (onProgress data w))) = false.

(** * Properties *)

(** ** Buffering *)

Lemma setIsLoading_same (w : World) : setIsLoading (isLoading (st w)) w = w.
Proof. destruct w as [[] h]; reflexivity. Qed.

(** C9: for every buffering event and every prior state, [onBuffer] sets
    the Loading flag to true exactly when
    [(b && !loading) || (!b && loading && ready)] holds and leaves it as it
    was otherwise; the handler is this one assignment, no other cell and
    nothing of the host changes. *)
Theorem onBuffer_sets_loading_exactly (data : OnBufferData) (w : World) :
  let cond := (isBuffering data && negb (isLoading (st w)))
              || (negb (isBuffering data) && isLoading (st w)
                  && isVideoReady (st w)) in
  isLoading (st (onBuffer data w)) = (if cond then true else isLoading (st w))
  /\ onBuffer data w
       = setIsLoading (if cond then true else isLoading (st w)) w.
Proof.
  intros cond; subst cond; unfold onBuffer; cbv zeta.
  destruct (_ || _).
  - split; reflexivity.
  - rewrite setIsLoading_same; split; reflexivity.
Qed.

(** The eight cases of the condition, spelled out. *)
Lemma onBuffer_truth_table (b loading ready : bool) (w : World) :
  isLoading (st w) = loading -> isVideoReady (st w) = ready ->
  isLoading (st (onBuffer {| isBuffering := b |} w))
    = match b, loading, ready with
      | true, false, _ => true
      | false, true, true => true
      | _, l, _ => l
      end.
Proof.
  intros <- <-; unfold onBuffer; cbv zeta; cbn [isBuffering].
  destruct b, (isLoading (st w)) eqn:L, (isVideoReady (st w));
    cbn; rewrite ?L; reflexivity.
Qed.

(** ** Timer bookkeeping of reachable worlds *)

Lemma wf_same (w w' : World) :
  hideControlsTimer (host w') = hideControlsTimer (host w) ->
  pendingTimers (host w') = pendingTimers (host w) ->
  nextTimerId (host w') = nextTimerId (host w) ->
  wf w -> wf w'.
Proof.
  intros Hr Hp Hn [A B C D].
  constructor; rewrite ?Hr, ?Hp, ?Hn; assumption.
Qed.

Lemma wf_onSt (f : PlayerState -> PlayerState) (w : World) :
  wf w -> wf (onSt f w).
Proof. apply wf_same; reflexivity. Qed.

Lemma wf_issue (c : Command) (w : World) : wf w -> wf (issue c w).
Proof. apply wf_same; reflexivity. Qed.

Lemma wf_seek (t : number) (w : World) : wf w -> wf (seek t w).
Proof. unfold seek; destruct (playerRef_current w); auto using wf_issue. Qed.

Lemma wf_mount (p : Props) : wf (mount p).
Proof.
  constructor; cbn; auto; try discriminate; contradiction.
Qed.

Lemma wf_clearTimeout (id : TimerId) (w : World) :
  wf w -> wf (clearTimeout id w).
Proof.
  intros [A B C D]; constructor; cbn; auto.
  - rewrite Forall_forall in *; intros t Ht.
    apply filter_In in Ht; apply B, Ht.
  - intros i t Hi Ht; apply filter_In in Ht; apply (D i t Hi), Ht.
Qed.

Lemma wf_clearTimeoutRef (o : option TimerId) (w : World) :
  wf w -> wf (clearTimeoutRef o w).
Proof. destruct o; cbn; auto using wf_clearTimeout. Qed.

(** Arming a timer whose handle is dropped (the 100 ms grace timers). *)
Lemma wf_setTimeout_untracked (cb : TimerCallback) (d : nat) (w : World) :
  wf w -> wf (snd (setTimeout cb d w)).
Proof.
  intros [A B C D]; constructor; cbn.
  - lia.
  - apply Forall_app; split.
    + eapply Forall_impl; [|exact B]; cbn; intros; lia.
    + repeat constructor.
  - intros id Hid; specialize (C id Hid); lia.
  - intros id t Hid Ht Heq; apply in_app_or in Ht as [Ht|[<-|[]]].
    + eauto.
    + cbn in Heq; specialize (C id Hid); lia.
Qed.

(** Arming the auto-hide timer and keeping its handle in the ref. *)
Lemma wf_arm_hide (d : nat) (w : World) :
  wf w ->
  wf (let (id, w') := setTimeout HideControls d w in
      setHideControlsTimer (Some id) w').
Proof.
  intros [A B C D]; constructor; cbn.
  - lia.
  - apply Forall_app; split.
    + eapply Forall_impl; [|exact B]; cbn; intros; lia.
    + repeat constructor.
  - intros id [= <-]; lia.
  - intros id t [= <-] Ht Heq; apply in_app_or in Ht as [Ht|[<-|[]]].
    + rewrite Forall_forall in B; specialize (B t Ht); lia.
    + reflexivity.
Qed.

Ltac wf_tac :=
  repeat first
    [ assumption
    | apply wf_onSt
    | apply wf_issue
    | apply wf_seek
    | apply wf_clearTimeoutRef
    | apply wf_clearTimeout
    | apply wf_setTimeout_untracked
    | apply wf_arm_hide ].

Lemma wf_runTimerCallback (cb : TimerCallback) (w : World) :
  wf w -> wf (runTimerCallback cb w).
Proof. intros H; destruct cb; cbn [runTimerCallback]; wf_tac. Qed.

Lemma wf_fireTimer (id : TimerId) (w : World) : wf w -> wf (fireTimer id w).
Proof.
  intros H; unfold fireTimer; destruct (findTimer id w); auto.
  apply wf_runTimerCallback; wf_tac.
Qed.

Lemma wf_cleanup (w : World) : wf w -> wf (cleanup w).
Proof.
  intros H; unfold cleanup.
  apply (wf_same (if handleTruthy (hideControlsTimer (host w))
                   then clearTimeoutRef (hideControlsTimer (host w)) w else w)).
  - cbn; destruct (handleTruthy _); [destruct (hideControlsTimer (host w))|];
      reflexivity.
  - cbn; destruct (handleTruthy _); [destruct (hideControlsTimer (host w))|];
      reflexivity.
  - cbn; destruct (handleTruthy _); [destruct (hideControlsTimer (host w))|];
      reflexivity.
  - destruct (handleTruthy _); auto using wf_clearTimeoutRef.
Qed.

Lemma wf_unmount (w : World) : wf w -> wf (unmount w).
Proof.
  intros H; unfold unmount.
  apply (wf_same (cleanup w)); auto using wf_cleanup.
Qed.

Lemma wf_guarded (g : bool) (f : World -> World) (w : World) :
  (wf w -> wf (f w)) -> wf w -> wf (guarded g f w).
Proof. unfold guarded; destruct g; auto. Qed.

Lemma wf_step (p : Props) (e : Event) (w : World) : wf w -> wf (step p e w).
Proof.
  intros H; destruct e; cbn [step]; try (apply wf_guarded; [intros _|exact H]).
  - unfold getVolumeResolved; destruct (isActive _); wf_tac.
  - unfold focusVolumeResolved; destruct alive; wf_tac.
  - unfold volumeListenerCallback; wf_tac.
  - unfold onVideoError; wf_tac.
  - unfold onLoad; destruct (playerRef_current _); wf_tac.
  - unfold onReady; wf_tac.
  - unfold onProgress; destruct (isLoading _), (negb _); wf_tac.
  - unfold onEnd; wf_tac.
  - unfold onBuffer; destruct (_ || _); wf_tac.
  - unfold videoAreaClicked; cbv zeta.
    destruct (truthy _); auto; cbn [negb].
    destruct (negb (showControls _)); wf_tac.
    destruct (handleTruthy _); wf_tac.
  - unfold handlePlayPause; cbv zeta; destruct (_ =? _)%float; wf_tac.
  - unfold seekForward; cbv zeta; destruct (_ <? _)%float; wf_tac.
  - unfold seekBackward; cbv zeta; destruct (_ <? _)%float; wf_tac.
  - unfold onTouchStart; destruct (handleTruthy _); [destruct (truthy _)|];
      wf_tac.
  - unfold onTouchEnd; destruct (truthy _); wf_tac.
  - unfold onSeekBarChange; destruct val; wf_tac.
  - unfold onSeekBarSlidingStart; wf_tac.
  - unfold onSeekBarSlidingEnd; wf_tac.
  - unfold toggleMuteButton; cbv zeta; destruct (negb _); wf_tac.
  - unfold handleFullScreen; cbv zeta; destruct (isFullScreen _); wf_tac.
  - unfold onRetryClick; wf_tac.
  - apply wf_fireTimer, H.
  - apply wf_unmount, H.
Qed.

Lemma wf_run (p : Props) (es : list Event) (w : World) :
  wf w -> wf (run p es w).
Proof.
  revert w; induction es as [|e es IH]; cbn; intros w H; auto.
  apply IH, wf_step, H.
Qed.

Lemma reachable_wf (p : Props) (w : World) : reachable p w -> wf w.
Proof. intros [es ->]; apply wf_run, wf_mount. Qed.

(** ** Volume and mute *)

(** The volume listener writes the reported value into [volumeState]
    together with the mute flag of the first render, and leaves
    [systemVolume] alone. *)
Lemma volumeListenerCallback_state (v : number) (w : World) :
  volumeState (st (volumeListenerCallback v w))
    = {| isMute := false; volume := Some v |}
  /\ systemVolume (st (volumeListenerCallback v w)) = systemVolume (st w).
Proof. split; reflexivity. Qed.

(** [systemVolume] is written by the initial volume query only. *)
Lemma getVolumeResolved_state (v : number) (w : World) :
  isActive (host w) = true ->
  systemVolume (st (getVolumeResolved v w)) = Some v
  /\ volumeState (st (getVolumeResolved v w))
       = {| isMute := false; volume := Some v |}.
Proof. intros H; unfold getVolumeResolved; rewrite H; split; reflexivity. Qed.

(** Whatever the state before, a mute toggle that follows a volume
    notification mutes. *)
Lemma toggle_after_volume_event (v : number) (w : World) :
  let w' := toggleMuteButton (volumeListenerCallback v (toggleMuteButton w)) in
  mutedProp w' = true
  /\ volumeProp w' = 0%float
  /\ systemVolume (st w') = systemVolume (st w).
Proof.
  cbv zeta; unfold toggleMuteButton at 1.
  rewrite (proj1 (volumeListenerCallback_state v _)); cbn.
  repeat split.
  unfold toggleMuteButton; destruct (negb _); reflexivity.
Qed.

(** C1: mute, a system-volume notification with value V, then the mute
    button again should leave the decoder at volume V.  On the code it does
    not: with the system volume 0.5 known and the player unmuted, press
    mute, receive V = 0.75, press mute again.  The notification itself
    un-mutes the player and sets the output to 0.75 while [systemVolume]
    stays 0.5; the second press therefore mutes, and the decoder gets
    volume 0 with [muted] set. *)
Theorem mute_volume_event_unmute_output :
  let w0 := run withControls
              [GetVolumeResolved 0.5%float; VideoReadyForDisplay]
              (mount withControls) in
  let w1 := run withControls [MutePress; VolumeChanged 0.75%float] w0 in
  let w2 := run withControls [MutePress] w1 in
  (mutedProp w0 = false /\ systemVolume (st w0) = Some 0.5%float)
  /\ (mutedProp w1 = false /\ volumeProp w1 = 0.75%float
      /\ systemVolume (st w1) = Some 0.5%float)
  /\ (mutedProp w2 = true /\ volumeProp w2 = 0%float
      /\ volumeProp w2 <> 0.75%float).
Proof.
  cbv zeta; repeat split; try (vm_compute; reflexivity).
  vm_compute; intros H.
  assert (E : (0 =? 0.75)%float = true) by (rewrite <- H; reflexivity).
  vm_compute in E; discriminate.
Qed.

(** ** Seeking by ten seconds *)

(** When the forward target passes the end, the fraction is set to the
    duration itself. *)
Lemma seekForward_clamped (w : World) :
  (videoDuration (st w) <? videoSeek (st w) * videoDuration (st w) + 10)%float
    = true ->
  videoSeek (st (seekForward w)) = videoDuration (st w).
Proof.
  intros H; unfold seekForward; cbv zeta; rewrite H.
  unfold seek; destruct (playerRef_current w); reflexivity.
Qed.

(** When the backward target passes the start, time and fraction are 0. *)
Lemma seekBackward_clamped (w : World) :
  (videoSeek (st w) * videoDuration (st w) - 10 <? 0)%float = true ->
  videoSeek (st (seekBackward w)) = 0%float.
Proof.
  intros H; unfold seekBackward; cbv zeta; rewrite H.
  unfold seek; destruct (playerRef_current w); reflexivity.
Qed.

(** C2: forward then backward should return to the original fraction, the
    time clamped to [0, D] being the one sent to the decoder, and at t = D
    the fraction should stay 1.  On the code, with D = 120 and the playhead
    at the end (fraction 1), [seekForward] seeks to 120 but sets the
    fraction to 120; [seekBackward] then seeks to 120 * 120 - 10 = 14390,
    far past the end, and leaves the fraction at 14390 / 120. *)
Theorem seekForward_at_end_fraction :
  let w0 := run withControls
              [VideoLoad {| duration := 120%float |}; VideoReadyForDisplay;
               VideoProgress {| currentTime := 120%float;
                                seekableDuration := 120%float |}]
              (mount withControls) in
  let w1 := step withControls SeekForwardPress w0 in
  let w2 := step withControls SeekBackwardPress w1 in
  (videoDuration (st w0) = 120%float /\ videoSeek (st w0) = 1%float)
  /\ (videoSeek (st w1) = 120%float
      /\ commands (host w1) = commands (host w0) ++ [Seek 120%float])
  /\ (videoSeek (st w2) = (14390 / 120)%float
      /\ commands (host w2) = commands (host w1) ++ [Seek 14390%float]
      /\ (videoDuration (st w2) <? 14390)%float = true).
Proof. cbv zeta; repeat split; vm_compute; reflexivity. Qed.

(** ** The auto-hide timer *)

(** [onReady] and [onTouchEnd] queue their timer on top of whatever is
    pending. *)
Lemma onReady_pendingTimers (w : World) :
  pendingTimers (host (onReady w))
    = pendingTimers (host w)
        ++ [{| timerId := nextTimerId (host w); timerDelay := 3000;
               timerCallback := HideControls |}].
Proof. reflexivity. Qed.

Lemma onTouchEnd_pendingTimers (p : Props) (w : World) :
  truthy (controls p) = true ->
  pendingTimers (host (onTouchEnd p w))
    = pendingTimers (host w)
        ++ [{| timerId := nextTimerId (host w); timerDelay := 3000;
               timerCallback := HideControls |}].
Proof. intros H; unfold onTouchEnd; rewrite H; reflexivity. Qed.

(** The tap handler, by contrast, cancels the timer whose handle the ref
    holds before it arms the next one. *)
Lemma videoAreaClicked_cancels (p : Props) (w : World) (id : TimerId) :
  truthy (controls p) = true ->
  showControls (st w) = false ->
  hideControlsTimer (host w) = Some (S id) ->
  pendingTimers (host (videoAreaClicked p w))
    = filter (keepOthers (S id)) (pendingTimers (host w))
        ++ [{| timerId := nextTimerId (host w); timerDelay := 3000;
               timerCallback := HideControls |}].
Proof.
  intros Hc Hs Hr; unfold videoAreaClicked; cbv zeta.
  rewrite Hc, Hs; cbn; rewrite Hr; reflexivity.
Qed.

(** Two fingers lifted from the control surface arm two timers. *)
Lemma onTouchEnd_twice_pending :
  let w := run withControls
             [VideoReadyForDisplay; ControlsTouchStart; ControlsTouchStart;
              ControlsTouchEnd; ControlsTouchEnd]
             (mount withControls) in
  length (pendingHideTimers w) = 2.
Proof. reflexivity. Qed.

(** C3: at most one auto-hide timer should be pending, every arming
    operation cancelling the previous timer first.  On the code, a tap on
    the video surface followed by the first-frame-ready event leaves two
    auto-hide timers pending: [onReady] arms its timer without cancelling
    the one the tap armed, and overwrites the only handle to it. *)
Theorem tap_then_ready_pending_timers :
  let w := run withControls [VideoAreaPress; VideoReadyForDisplay]
             (mount withControls) in
  pendingHideTimers w
    = [{| timerId := 1; timerDelay := 3000; timerCallback := HideControls |};
       {| timerId := 2; timerDelay := 3000; timerCallback := HideControls |}]
  /\ length (pendingHideTimers w) = 2
  /\ hideControlsTimer (host w) = Some 2
  /\ reachable withControls w.
Proof.
  cbv zeta; repeat split.
  exists [VideoAreaPress; VideoReadyForDisplay]; reflexivity.
Qed.

(** ** Teardown *)

Lemma find_filter_keepOthers (id : TimerId) (l : list Timer) :
  find (fun t => timerId t =? id) (filter (keepOthers id) l) = None.
Proof.
  induction l as [|t l IH]; cbn; auto.
  unfold keepOthers at 1.
  destruct (timerId t =? id) eqn:E; cbn; auto.
  rewrite E; exact IH.
Qed.

Lemma In_filter_keepOthers (id : TimerId) (t : Timer) (l : list Timer) :
  In t l -> timerId t <> id -> In t (filter (keepOthers id) l).
Proof.
  intros Hin Hne; apply filter_In; split; auto.
  unfold keepOthers; apply negb_true_iff, Nat.eqb_neq, Hne.
Qed.

(** What [cleanup] does to the timer queue in a world whose ref holds a
    truthy handle. *)
Lemma cleanup_pendingTimers (w : World) (id : TimerId) :
  hideControlsTimer (host w) = Some (S id) ->
  pendingTimers (host (cleanup w))
    = filter (keepOthers (S id)) (pendingTimers (host w)).
Proof. intros H; unfold cleanup; cbn; rewrite H; reflexivity. Qed.

Lemma cleanup_pendingTimers_null (w : World) :
  handleTruthy (hideControlsTimer (host w)) = false ->
  pendingTimers (host (cleanup w)) = pendingTimers (host w).
Proof. intros H; unfold cleanup; cbn; rewrite H; reflexivity. Qed.

Lemma cleanup_st (w : World) : st (cleanup w) = st w.
Proof.
  unfold cleanup; cbn; destruct (handleTruthy _); auto.
  destruct (hideControlsTimer (host w)); reflexivity.
Qed.

Lemma cleanup_flags (w : World) :
  isActive (host (cleanup w)) = false
  /\ volumeListener (host (cleanup w)) = false
  /\ unsubscribeDimensions (host (cleanup w)) = false.
Proof.
  unfold cleanup; cbn; destruct (handleTruthy _);
    [destruct (hideControlsTimer (host w))|]; repeat split.
Qed.

(** C4, as stated, fails: press play at the end of the media, then unmount
    within the 100 ms grace delay.  The grace timer is still queued. *)
Lemma unmount_keeps_grace_timer :
  ~ unmount_releases_every_timer
      (run withControls
         [VideoLoad {| duration := 120%float |}; VideoReadyForDisplay;
          VideoEnd; PlayPausePress]
         (mount withControls)).
Proof. unfold unmount_releases_every_timer; vm_compute; discriminate. Qed.

(** The grace timer of a fullscreen exit survives unmount as well, and a
    surviving timer still runs its callback. *)
Lemma unmount_keeps_fullscreen_timer :
  let w := unmount (run withControls
                      [VideoReadyForDisplay; FullScreenPress; FullScreenPress]
                      (mount withControls)) in
  pendingTimers (host w)
    = [{| timerId := 2; timerDelay := 100; timerCallback := LockPortrait |}]
  /\ commands (host (step withControls (TimerFired 2) w))
       = commands (host w) ++ [LockToPortrait].
Proof. cbv zeta; split; reflexivity. Qed.

(** C4 (amended): unmount clears the liveness flag, releases the volume
    subscription and the dimension-change subscription, and cancels the
    auto-hide timer whose handle the ref holds, so that neither the volume
    listener nor the initial volume query changes anything afterwards; the
    100 ms grace timers of [handlePlayPause] and of the fullscreen exit are
    not cancelled: every timer that is not an auto-hide timer is still
    pending after unmount.  The state cells are left as they are. *)
Theorem unmount_releases (p : Props) (w : World) (H : reachable p w) :
  let w' := unmount w in
  (isActive (host w') = false
   /\ volumeListener (host w') = false
   /\ unsubscribeDimensions (host w') = false)
  /\ (forall id, hideControlsTimer (host w) = Some id -> findTimer id w' = None)
  /\ (forall v, step p (VolumeChanged v) w' = w'
                /\ step p (GetVolumeResolved v) w' = w')
  /\ (forall t, In t (pendingTimers (host w)) ->
                timerCallback t <> HideControls ->
                In t (pendingTimers (host w')))
  /\ st w' = st w.
Proof.
  apply reachable_wf in H; destruct H as [Hn Hids Href Hhide].
  cbv zeta.
  destruct (cleanup_flags w) as (Fa & Fv & Fd).
  split; [repeat split; assumption|].
  split.
  { intros id Hid; destruct (Href id Hid) as [Hpos _].
    destruct id as [|id]; [lia|].
    unfold findTimer, unmount; cbn [host onHost pendingTimers with_mounted].
    rewrite (cleanup_pendingTimers w id Hid).
    apply find_filter_keepOthers. }
  split.
  { intros v; split; cbn [step].
    - unfold guarded.
      change (volumeListener (host (unmount w)))
        with (volumeListener (host (cleanup w))).
      rewrite Fv; reflexivity.
    - unfold getVolumeResolved.
      change (isActive (host (unmount w))) with (isActive (host (cleanup w))).
      rewrite Fa; reflexivity. }
  split; [|apply cleanup_st].
  intros t Hin Hcb.
  unfold unmount; cbn [host onHost pendingTimers with_mounted].
  destruct (hideControlsTimer (host w)) as [[|id]|] eqn:Hr.
  - rewrite cleanup_pendingTimers_null by (rewrite Hr; reflexivity); exact Hin.
  - rewrite (cleanup_pendingTimers w id Hr).
    apply In_filter_keepOthers; auto.
    intros Heq; apply Hcb, (Hhide (S id) t); auto.
  - rewrite cleanup_pendingTimers_null by (rewrite Hr; reflexivity); exact Hin.
Qed.

Lemma unmount_releases_witness :
  let p := withControls in
  let w := run p [VideoLoad {| duration := 120%float |}; VideoReadyForDisplay;
                  VideoEnd; PlayPausePress] (mount p) in
  reachable p w
  /\ findTimer 1 (unmount w) = None
  /\ In {| timerId := 2; timerDelay := 100; timerCallback := ResumePlaying |}
        (pendingTimers (host (unmount w))).
Proof.
  cbv zeta.
  assert (R : reachable withControls
                (run withControls
                   [VideoLoad {| duration := 120%float |};
                    VideoReadyForDisplay; VideoEnd; PlayPausePress]
                   (mount withControls)))
    by (eexists; reflexivity).
  split; [exact R|].
  destruct (unmount_releases withControls _ R) as (_ & Hc & _ & Hk & _).
  split.
  - apply Hc; reflexivity.
  - apply Hk; [right; left; reflexivity | discriminate].
Defined.

(** ** Play and pause *)

Lemma find_fresh (n : TimerId) (t : Timer) (l : list Timer) :
  Forall (fun x => timerId x < n) l -> timerId t = n ->
  find (fun x => timerId x =? n) (l ++ [t]) = Some t.
Proof.
  intros Hl Ht; induction Hl as [|x l Hx _ IH]; cbn.
  - rewrite Ht, Nat.eqb_refl; reflexivity.
  - destruct (timerId x =? n) eqn:E; [apply Nat.eqb_eq in E; lia | exact IH].
Qed.

Lemma seek_attached (t : number) (w : World) :
  playerRef_current w = true -> seek t w = issue (Seek t) w.
Proof. intros H; unfold seek; rewrite H; reflexivity. Qed.

(** C5: called with [videoSeek === 1], [handlePlayPause] sets the fraction
    to 0 and sends the decoder a seek to 0 while leaving the play state as
    it is; the switch to Playing is the callback of a timer armed with a
    delay of 100 ms, and happens when that timer fires.  In every other
    state the handler flips [isPlaying] and does nothing else: no seek, no
    timer, the fraction untouched. *)
Theorem handlePlayPause_spec (p : Props) (w : World)
  (Hr : reachable p w) (Hv : playerRef_current w = true) :
  let w' := handlePlayPause w in
  let grace := {| timerId := nextTimerId (host w); timerDelay := 100;
                  timerCallback := ResumePlaying |} in
  ((videoSeek (st w) =? 1)%float = true ->
     videoSeek (st w') = 0%float
     /\ commands (host w') = commands (host w) ++ [Seek 0%float]
     /\ isPlaying (st w') = isPlaying (st w)
     /\ pendingTimers (host w') = pendingTimers (host w) ++ [grace]
     /\ isPlaying (st (fireTimer (timerId grace) w')) = true)
  /\ ((videoSeek (st w) =? 1)%float = false ->
     isPlaying (st w') = negb (isPlaying (st w))
     /\ videoSeek (st w') = videoSeek (st w)
     /\ host w' = host w).
Proof.
  cbv zeta; unfold handlePlayPause; split; intros E; rewrite E.
  - rewrite seek_attached by exact Hv.
    repeat split.
    unfold fireTimer, findTimer; cbn [snd setTimeout host onHost issue
      setVideoSeek onSt pendingTimers with_nextTimerId with_pendingTimers
      with_commands nextTimerId timerId].
    rewrite find_fresh; [reflexivity | | reflexivity].
    apply reachable_wf in Hr; apply Hr.
  - repeat split.
Qed.

Lemma handlePlayPause_spec_witness :
  let p := withControls in
  let w := run p [VideoLoad {| duration := 120%float |}; VideoReadyForDisplay;
                  VideoEnd] (mount p) in
  (reachable p w /\ playerRef_current w = true
   /\ (videoSeek (st w) =? 1)%float = true)
  /\ videoSeek (st (handlePlayPause w)) = 0%float
  /\ isPlaying (st (handlePlayPause w)) = false
  /\ isPlaying (st (fireTimer 2 (handlePlayPause w))) = true.
Proof.
  cbv zeta.
  assert (R : reachable withControls
                (run withControls
                   [VideoLoad {| duration := 120%float |};
                    VideoReadyForDisplay; VideoEnd] (mount withControls)))
    by (eexists; reflexivity).
  split; [repeat split; exact R|].
  destruct (handlePlayPause_spec withControls _ R eq_refl) as [Hend _].
  destruct (Hend eq_refl) as (H0 & _ & Hp & _ & Hf).
  split; [exact H0 | split; [exact Hp | exact Hf]].
Defined.

(** ** Progress and the seek bar *)

(** While the seek bar is busy, [onProgress] writes the Loading flag at
    most. *)
Lemma onProgress_busy (data : OnProgressData) (w : World) :
  isSeekBarBusy (st w) = true ->
  onProgress data w = (if isLoading (st w) then setIsLoading false w else w).
Proof. intros H; unfold onProgress; cbv zeta; rewrite H; reflexivity. Qed.

(** C6: an [onProgress] event delivered while [isSeekBarBusy] is true
    leaves the seek fraction as it is (and the seek bar busy). *)
Theorem onProgress_busy_keeps_videoSeek (data : OnProgressData) (w : World)
  (Hbusy : isSeekBarBusy (st w) = true) :
  videoSeek (st (onProgress data w)) = videoSeek (st w)
  /\ isSeekBarBusy (st (onProgress data w)) = true.
Proof.
  rewrite onProgress_busy by exact Hbusy.
  destruct (isLoading (st w)); split; cbn; auto.
Qed.

Lemma onProgress_busy_keeps_videoSeek_witness :
  let w := onSeekBarSlidingStart
             (setVideoSeek 0.25%float (mount withControls)) in
  isSeekBarBusy (st w) = true
  /\ videoSeek (st (onProgress {| currentTime := 60%float;
                                   seekableDuration := 120%float |} w))
     = 0.25%float.
Proof.
  cbv zeta; split; [reflexivity|].
  apply (onProgress_busy_keeps_videoSeek
           {| currentTime := 60%float; seekableDuration := 120%float |}
           (onSeekBarSlidingStart (setVideoSeek 0.25%float (mount withControls)))).
  reflexivity.
Defined.

(** The same for any burst of progress events during one drag. *)
Lemma onProgress_burst_busy (ds : list OnProgressData) (w : World) :
  isSeekBarBusy (st w) = true ->
  videoSeek (st (fold_left (fun w d => onProgress d w) ds w)) = videoSeek (st w).
Proof.
  revert w; induction ds as [|d ds IH]; cbn; intros w H; auto.
  rewrite IH; rewrite onProgress_busy by exact H;
    destruct (isLoading (st w)); cbn; auto.
Qed.

(** Outside a drag the event does set the fraction. *)
Lemma onProgress_idle_sets_videoSeek (data : OnProgressData) (w : World) :
  isSeekBarBusy (st w) = false ->
  videoSeek (st (onProgress data w))
    = (currentTime data / seekableDuration data)%float.
Proof.
  intros H; unfold onProgress; cbv zeta; rewrite H; reflexivity.
Qed.

Lemma onProgress_clears_loading (data : OnProgressData) (w : World) :
  isLoading (st (onProgress data w)) = false.
Proof.
  unfold onProgress; cbv zeta.
  destruct (isLoading (st w)) eqn:L, (negb (isSeekBarBusy (st w)));
    cbn; auto.
Qed.

(** C10: a scalar value given to the seek-bar change handler changes
    nothing (no seek, the fraction as it was); an array value sends the
    decoder a seek to [val[0] * videoDuration] and sets the fraction to
    [val[0]]. *)
Theorem onSeekBarChange_spec (w : World) (Hv : playerRef_current w = true) :
  (forall v, onSeekBarChange (Scalar v) w = w)
  /\ (forall v0 rest,
        let w' := onSeekBarChange (Values v0 rest) w in
        commands (host w')
          = commands (host w) ++ [Seek (v0 * videoDuration (st w))%float]
        /\ videoSeek (st w') = v0).
Proof.
  split; [reflexivity|].
  intros v0 rest; cbv zeta; unfold onSeekBarChange.
  rewrite seek_attached by exact Hv; split; reflexivity.
Qed.

Lemma onSeekBarChange_spec_witness :
  let w := setVideoDuration 120%float (mount withControls) in
  playerRef_current w = true
  /\ onSeekBarChange (Scalar 0.5%float) w = w
  /\ commands (host (onSeekBarChange (Values 0.5%float []) w)) = [Seek 60%float]
  /\ videoSeek (st (onSeekBarChange (Values 0.5%float []) w)) = 0.5%float.
Proof.
  cbv zeta; split; [reflexivity|].
  destruct (onSeekBarChange_spec
              (setVideoDuration 120%float (mount withControls)) eq_refl)
    as [Hs Ha].
  split; [apply Hs|].
  exact (Ha 0.5%float []).
Defined.

(** ** First frame ready *)

(** C7, as stated, fails on the freshly mounted player: the Loading flag is
    still set after [onReady]. *)
Lemma onReady_keeps_loading : ~ onReady_clears_loading (mount withControls).
Proof. unfold onReady_clears_loading; vm_compute; discriminate. Qed.

(** C7 (amended): when the first frame is ready the handler marks the video
    ready, sets the controls visible and arms the 3-second auto-hide timer,
    keeping its handle in the ref; it leaves the Loading flag as it is.
    The flag is cleared by the next progress event. *)
Theorem onReady_spec (w : World) :
  let w' := onReady w in
  isVideoReady (st w') = true
  /\ showControls (st w') = true
  /\ isLoading (st w') = isLoading (st w)
  /\ pendingTimers (host w')
       = pendingTimers (host w)
           ++ [{| timerId := nextTimerId (host w); timerDelay := 3000;
                  timerCallback := HideControls |}]
  /\ hideControlsTimer (host w') = Some (nextTimerId (host w))
  /\ (forall data, isLoading (st (onProgress data w')) = false).
Proof.
  cbv zeta; repeat split.
  intros data; apply onProgress_clears_loading.
Qed.

(** ** Zero duration *)

(** A finite float is a zero or a normal or subnormal value. *)
Lemma is_finite_cases (x : float) :
  is_finite x = true ->
  (exists s, Prim2SF x = S754_zero s)
  \/ (exists s m e, Prim2SF x = S754_finite s m e).
Proof.
  unfold is_finite, is_nan, is_infinity.
  rewrite !FloatAxioms.eqb_spec, abs_spec.
  destruct (Prim2SF x) as [s|s| |s m e]; cbn; try discriminate; eauto.
  destruct s; discriminate.
Qed.

Lemma finite_times_zero_plus_ten (x : float) :
  is_finite x = true -> (x * 0 + 10 = 10)%float.
Proof.
  intros H; apply Prim2SF_inj; rewrite add_spec, mul_spec.
  destruct (is_finite_cases x H) as [[s ->]|(s & m & e & ->)]; reflexivity.
Qed.

Lemma finite_times_zero_minus_ten (x : float) :
  is_finite x = true -> (x * 0 - 10 = -10)%float.
Proof.
  intros H; apply Prim2SF_inj; rewrite sub_spec, mul_spec.
  destruct (is_finite_cases x H) as [[s ->]|(s & m & e & ->)]; reflexivity.
Qed.

(** C8, as stated, fails: a progress event with [currentTime] 0 and
    [seekableDuration] 0, as reported for media whose length is not known
    yet, sets the fraction to 0 / 0. *)
Lemma onProgress_zero_duration_NaN :
  ~ onProgress_never_NaN
      {| currentTime := 0%float; seekableDuration := 0%float |}
      (mount withControls).
Proof. unfold onProgress_never_NaN; vm_compute; discriminate. Qed.

(** C8 (amended): no seek computation guards a zero duration.  With the
    seek bar idle, [onProgress] sets the fraction to
    [currentTime / seekableDuration] whatever the operands, which is NaN
    for 0 / 0.  [seekForward] and [seekBackward] divide by [videoDuration]
    unguarded too; with [videoDuration] 0 and a finite fraction both then
    take their clamp branch, which overwrites the quotient, so the fraction
    they set is 0. *)
Theorem zero_duration_seek (data : OnProgressData) (w : World)
  (Hidle : isSeekBarBusy (st w) = false)
  (Hdur : videoDuration (st w) = 0%float)
  (Hfin : is_finite (videoSeek (st w)) = true) :
  videoSeek (st (onProgress data w))
    = (currentTime data / seekableDuration data)%float
  /\ is_nan (videoSeek (st (onProgress
               {| currentTime := 0%float; seekableDuration := 0%float |} w)))
     = true
  /\ videoSeek (st (seekForward w)) = 0%float
  /\ videoSeek (st (seekBackward w)) = 0%float.
Proof.
  split; [apply onProgress_idle_sets_videoSeek, Hidle|].
  split; [rewrite onProgress_idle_sets_videoSeek by exact Hidle; reflexivity|].
  split.
  - rewrite seekForward_clamped; [exact Hdur|].
    rewrite Hdur, finite_times_zero_plus_ten by exact Hfin; reflexivity.
  - apply seekBackward_clamped.
    rewrite Hdur, finite_times_zero_minus_ten by exact Hfin; reflexivity.
Qed.

Lemma zero_duration_seek_witness :
  let w := mount withControls in
  (isSeekBarBusy (st w) = false /\ videoDuration (st w) = 0%float
   /\ is_finite (videoSeek (st w)) = true)
  /\ videoSeek (st (onProgress {| currentTime := 5%float;
                                   seekableDuration := 0%float |} w))
     = infinity
  /\ videoSeek (st (seekForward w)) = 0%float
  /\ videoSeek (st (seekBackward w)) = 0%float.
Proof.
  cbv zeta; split; [repeat split|].
  destruct (zero_duration_seek
              {| currentTime := 5%float; seekableDuration := 0%float |}
              (mount withControls) eq_refl eq_refl eq_refl)
    as (Hp & _ & Hf & Hb).
  split; [exact Hp | split; [exact Hf | exact Hb]].
Defined.

(** * Further properties of the component *)

(** ** Reasoning over reachable worlds *)

Lemma run_invariant (p : Props) (P : World -> Prop) :
  (forall e w, P w -> P (step p e w)) ->
  forall es w, P w -> P (run p es w).
Proof.
  intros Hstep es; induction es as [|e es IH]; cbn; intros w Hw; auto.
  apply IH, Hstep, Hw.
Qed.

Lemma reachable_invariant (p : Props) (P : World -> Prop) :
  P (mount p) ->
  (forall e w, P w -> P (step p e w)) ->
  forall w, reachable p w -> P w.
Proof.
  intros H0 Hstep w [es ->]; apply run_invariant; assumption.
Qed.

Lemma reachable_step (p : Props) (e : Event) (w : World) :
  reachable p w -> reachable p (step p e w).
Proof.
  intros [es ->]; exists (es ++ [e]).
  unfold run; rewrite fold_left_app; reflexivity.
Qed.

(** Case analysis on everything a turn of the event loop branches on. *)
Ltac unfold_handlers :=
  unfold step, guarded, getVolumeResolved, focusVolumeResolved,
    volumeListenerCallback, onVideoError, onLoad, onReady, onProgress, onEnd,
    onBuffer, videoAreaClicked, handlePlayPause, seekForward, seekBackward,
    onTouchStart, onTouchEnd, onSeekBarChange, onSeekBarSlidingStart,
    onSeekBarSlidingEnd, toggleMuteButton, handleFullScreen, onRetryClick,
    fireTimer, runTimerCallback, unmount, cleanup, clearTimeoutRef, seek;
  cbv zeta.

Ltac split_branches :=
  repeat match goal with
    | |- context [if ?b then _ else _] => destruct b eqn:?
    | |- context [match ?x with Some _ => _ | None => _ end] => destruct x eqn:?
    | |- context [match ?x with HideControls => _ | _ => _ end] => destruct x eqn:?
    | |- context [match ?x with Scalar _ => _ | Values _ _ => _ end] => destruct x eqn:?
    end.

Ltac step_cases e := destruct e; unfold_handlers; split_branches; cbn.

(** ** Fullscreen *)

Lemma immersiveAfter_app (a b : list Command) (on : bool) :
  immersiveAfter (a ++ b) on = immersiveAfter b (immersiveAfter a on).
Proof.
  revert on; induction a as [|c a IH]; cbn; intros on; auto.
  destruct c; auto.
Qed.

(** X1: in every reachable world the status bar is hidden exactly when the
    player is fullscreen, and immersive mode, as left by the commands issued
    so far, is on exactly when the player is fullscreen. *)
Theorem fullscreen_effects_agree (p : Props) (w : World) (H : reachable p w) :
  isStatusBarHidden (st w) = isFullScreen (st w)
  /\ immersiveAfter (commands (host w)) false = isFullScreen (st w).
Proof.
  revert w H; apply reachable_invariant; [split; reflexivity|].
  intros e w [Hs Hi].
  step_cases e; rewrite ?immersiveAfter_app; cbn; rewrite ?Hi; auto;
    split; congruence.
Qed.

Lemma fullscreen_effects_agree_witness :
  let w := run withControls [VideoReadyForDisplay; FullScreenPress]
             (mount withControls) in
  reachable withControls w
  /\ isStatusBarHidden (st w) = true
  /\ immersiveAfter (commands (host w)) false = true.
Proof.
  cbv zeta.
  assert (R : reachable withControls
                (run withControls [VideoReadyForDisplay; FullScreenPress]
                   (mount withControls))) by (eexists; reflexivity).
  split; [exact R|].
  exact (fullscreen_effects_agree withControls _ R).
Defined.

(** X2: the deferred portrait lock of a fullscreen exit is not cancelled by
    re-entering fullscreen.  From any reachable fullscreen world with the
    fullscreen button on screen, pressing the button twice and then letting
    the 100 ms timer of the first press fire leaves the player fullscreen
    with [lockToPortrait] as the last orientation command. *)
Theorem fullscreen_reentry_locks_portrait (p : Props) (w : World)
  (Hr : reachable p w)
  (Hc : controlsRendered p w = true)
  (Hb : nullish (wantFullScreen p) true = true)
  (Hfs : isFullScreen (st w) = true) :
  let w1 := step p FullScreenPress w in
  let w2 := step p FullScreenPress w1 in
  let w3 := step p (TimerFired (nextTimerId (host w))) w2 in
  isFullScreen (st w1) = false
  /\ isFullScreen (st w3) = true
  /\ commands (host w3)
     = commands (host w)
         ++ [ImmersiveOff; LockToLandscape; ImmersiveOn; LockToPortrait].
Proof.
  cbv zeta.
  assert (E1 : step p FullScreenPress w
               = snd (setTimeout LockPortrait 100
                        (setIsStatusBarHidden false
                           (setIsFullScreen false (issue ImmersiveOff w))))).
  { cbn [step]; unfold guarded, handleFullScreen; rewrite Hc, Hb, Hfs;
      reflexivity. }
  rewrite E1; clear E1.
  set (w1 := snd (setTimeout LockPortrait 100 _)).
  assert (Hc1 : controlsRendered p w1 = true) by exact Hc.
  assert (E2 : step p FullScreenPress w1
               = issue ImmersiveOn
                   (setIsStatusBarHidden true
                      (issue LockToLandscape (setIsFullScreen true w1)))).
  { cbn [step]; unfold guarded, handleFullScreen; rewrite Hc1, Hb;
      reflexivity. }
  rewrite E2; clear E2.
  split; [reflexivity|].
  cbn [step]; unfold fireTimer, findTimer.
  cbn [host pendingTimers issue setIsStatusBarHidden setIsFullScreen onSt onHost
       with_commands w1 snd setTimeout with_nextTimerId with_pendingTimers].
  rewrite find_fresh; [|apply reachable_wf in Hr; apply Hr|reflexivity].
  cbn; rewrite <- !app_assoc; split; reflexivity.
Qed.

Lemma fullscreen_reentry_locks_portrait_witness :
  let p := withControls in
  let w := run p [VideoReadyForDisplay; FullScreenPress] (mount p) in
  (reachable p w /\ controlsRendered p w = true /\ isFullScreen (st w) = true)
  /\ isFullScreen (st (run p [FullScreenPress; FullScreenPress; TimerFired 2] w))
     = true
  /\ commands (host (run p [FullScreenPress; FullScreenPress; TimerFired 2] w))
     = [LockToLandscape; ImmersiveOn; ImmersiveOff; LockToLandscape;
        ImmersiveOn; LockToPortrait].
Proof.
  cbv zeta.
  assert (R : reachable withControls
                (run withControls [VideoReadyForDisplay; FullScreenPress]
                   (mount withControls))) by (eexists; reflexivity).
  split; [split; [exact R | split; reflexivity]|].
  destruct (fullscreen_reentry_locks_portrait withControls _ R
              eq_refl eq_refl eq_refl) as (_ & H3 & Hcmd).
  split; [exact H3 | exact Hcmd].
Defined.

(** ** Volume and mute, continued *)

(** X3: in every reachable world a muted player has volume 0: whenever
    [muted] is passed to the decoder as true, the volume passed is 0. *)
Theorem muted_volume_zero (p : Props) (w : World)
  (H : reachable p w) (Hm : mutedProp w = true) :
  volume (volumeState (st w)) = Some 0%float /\ volumeProp w = 0%float.
Proof.
  assert (G : isMute (volumeState (st w)) = true ->
              volume (volumeState (st w)) = Some 0%float).
  { clear Hm; revert w H.
    apply (reachable_invariant p
             (fun w => isMute (volumeState (st w)) = true ->
                       volume (volumeState (st w)) = Some 0%float));
      [discriminate|].
    intros e w IH; step_cases e; auto; try discriminate. }
  unfold volumeProp; rewrite (G Hm); split; reflexivity.
Qed.

Lemma muted_volume_zero_witness :
  let w := run withControls
             [GetVolumeResolved 0.5%float; VideoReadyForDisplay; MutePress]
             (mount withControls) in
  (reachable withControls w /\ mutedProp w = true)
  /\ volumeProp w = 0%float.
Proof.
  cbv zeta.
  assert (R : reachable withControls
                (run withControls
                   [GetVolumeResolved 0.5%float; VideoReadyForDisplay; MutePress]
                   (mount withControls))) by (eexists; reflexivity).
  split; [split; [exact R | reflexivity]|].
  exact (proj2 (muted_volume_zero withControls _ R eq_refl)).
Defined.

(** X4: muting and un-muting an unmuted player, with no volume report in
    between, leaves it unmuted at [systemVolume ?? 0], whatever the volume
    was before the mute; while [systemVolume] is still [null] the decoder
    is left at volume 0. *)
Theorem mute_unmute_restores_systemVolume (w : World)
  (Hm : mutedProp w = false) :
  let w' := toggleMuteButton (toggleMuteButton w) in
  mutedProp w' = false
  /\ volumeProp w' = nullish (systemVolume (st w)) 0%float
  /\ (systemVolume (st w) = None -> volumeProp w' = 0%float).
Proof.
  cbv zeta; unfold mutedProp in Hm.
  unfold toggleMuteButton, mutedProp, volumeProp; cbv zeta.
  rewrite Hm; cbn.
  split; [reflexivity|]; split; [reflexivity|].
  intros ->; reflexivity.
Qed.

Lemma mute_unmute_restores_systemVolume_witness :
  let w := volumeListenerCallback 0.75%float
             (getVolumeResolved 0.5%float (mount withControls)) in
  (mutedProp w = false /\ volumeProp w = 0.75%float)
  /\ volumeProp (toggleMuteButton (toggleMuteButton w)) = 0.5%float.
Proof.
  cbv zeta; split; [split; reflexivity|].
  exact (proj1 (proj2 (mute_unmute_restores_systemVolume
                         (volumeListenerCallback 0.75%float
                            (getVolumeResolved 0.5%float (mount withControls)))
                         eq_refl))).
Defined.

(** X5: every volume report un-mutes.  The volume listener, the focus
    query (while its focus is alive) and the initial query (while the
    component is alive) all leave the player unmuted at the reported volume,
    muted or not before. *)
Theorem volume_report_unmutes (v : number) (w : World) :
  (mutedProp (volumeListenerCallback v w) = false
   /\ volumeProp (volumeListenerCallback v w) = v)
  /\ (mutedProp (focusVolumeResolved true v w) = false
      /\ volumeProp (focusVolumeResolved true v w) = v)
  /\ (isActive (host w) = true ->
      mutedProp (getVolumeResolved v w) = false
      /\ volumeProp (getVolumeResolved v w) = v
      /\ systemVolume (st (getVolumeResolved v w)) = Some v).
Proof.
  split; [split; reflexivity|]; split; [split; reflexivity|].
  intros Ha; unfold getVolumeResolved; rewrite Ha; repeat split.
Qed.

Lemma volume_report_unmutes_witness :
  let w := toggleMuteButton (mount withControls) in
  (mutedProp w = true /\ isActive (host w) = true)
  /\ mutedProp (getVolumeResolved 0.5%float w) = false
  /\ mutedProp (volumeListenerCallback 0.5%float w) = false.
Proof.
  cbv zeta; split; [split; reflexivity|].
  destruct (volume_report_unmutes 0.5%float (toggleMuteButton (mount withControls)))
    as ((Hl & _) & _ & Hg).
  split; [exact (proj1 (Hg eq_refl)) | exact Hl].
Defined.

(** ** After unmount *)

Lemma unmounted_flags (p : Props) (w : World) :
  reachable p w -> mounted (host w) = false ->
  isActive (host w) = false /\ volumeListener (host w) = false
  /\ unsubscribeDimensions (host w) = false.
Proof.
  intros H; revert w H.
  apply (reachable_invariant p
           (fun w => mounted (host w) = false ->
                     isActive (host w) = false /\ volumeListener (host w) = false
                     /\ unsubscribeDimensions (host w) = false));
    [discriminate|].
  intros e w IH; step_cases e; intros Hm;
    first [ discriminate
          | destruct (IH Hm) as (? & ? & ?); repeat split; congruence
          | exact (IH eq_refl)
          | repeat split; reflexivity ].
Qed.

(** X6: once the component is unmounted, only timers that were left pending
    and the promise of a focus effect can still change anything: every
    decoder event, every press or touch, the volume listener, the initial
    volume query and a second unmount leave the world as it is. *)
Theorem unmounted_inert (p : Props) (e : Event) (w : World)
  (H : reachable p w) (Hu : mounted (host w) = false)
  (He : isSubscriptionEvent e = true) :
  step p e w = w.
Proof.
  destruct (unmounted_flags p w H Hu) as (Ha & Hv & _).
  destruct e; try discriminate He; cbn [step];
    unfold guarded, getVolumeResolved, controlsRendered, videoRendered;
    rewrite ?Ha, ?Hv, ?Hu; reflexivity.
Qed.

Lemma unmounted_inert_witness :
  let w := run withControls [VideoReadyForDisplay; Unmount] (mount withControls) in
  (reachable withControls w /\ mounted (host w) = false)
  /\ step withControls (VolumeChanged 0.5%float) w = w
  /\ step withControls PlayPausePress w = w.
Proof.
  cbv zeta.
  assert (R : reachable withControls
                (run withControls [VideoReadyForDisplay; Unmount]
                   (mount withControls))) by (eexists; reflexivity).
  split; [split; [exact R | reflexivity]|].
  split.
  - exact (unmounted_inert withControls (VolumeChanged 0.5%float) _ R eq_refl eq_refl).
  - exact (unmounted_inert withControls PlayPausePress _ R eq_refl eq_refl).
Defined.

(** ** Error and retry *)

Lemma setIsRetry_same (w : World) : setIsRetry (isRetry (st w)) w = w.
Proof. destruct w as [[] h]; reflexivity. Qed.

(** X7: a decoder error followed by a press on the retry button brings the
    component back to exactly the world before the error: the Loading flag
    is not raised again and the seek fraction, the play state and the
    pending timers are kept. *)
Theorem error_then_retry_restores (p : Props) (w : World)
  (Hv : videoRendered w = true) :
  isRetry (st (step p VideoError w)) = true
  /\ run p [VideoError; RetryPress] w = w.
Proof.
  unfold videoRendered in Hv; apply andb_true_iff in Hv as [Hm Hr].
  apply negb_true_iff in Hr.
  assert (E : step p VideoError w = onVideoError w).
  { cbn [step]; unfold guarded, videoRendered; rewrite Hm, Hr; reflexivity. }
  split; [rewrite E; reflexivity|].
  cbn [run fold_left]; rewrite E.
  cbn [step]; unfold guarded, onVideoError, onRetryClick.
  cbn [host st setIsRetry onSt isRetry stIsRetry]; rewrite Hm; cbn [andb].
  rewrite <- (setIsRetry_same w) at 2; rewrite Hr.
  destruct w as [[] h]; reflexivity.
Qed.

Lemma error_then_retry_restores_witness :
  let w := run withControls
             [VideoLoad {| duration := 120%float |}; VideoReadyForDisplay;
              VideoProgress {| currentTime := 30%float;
                               seekableDuration := 120%float |}]
             (mount withControls) in
  videoRendered w = true
  /\ run withControls [VideoError; RetryPress] w = w
  /\ isLoading (st (run withControls [VideoError; RetryPress] w)) = false.
Proof.
  cbv zeta; split; [reflexivity|].
  pose proof (proj2 (error_then_retry_restores withControls
    (run withControls
       [VideoLoad {| duration := 120%float |}; VideoReadyForDisplay;
        VideoProgress {| currentTime := 30%float;
                         seekableDuration := 120%float |}]
       (mount withControls)) eq_refl)) as H.
  split; [exact H | rewrite H; reflexivity].
Defined.

(** ** Without the [controls] prop *)

Lemma Forall_snoc {A : Type} (P : A -> Prop) (l : list A) (a : A) :
  Forall P l -> P a -> Forall P (l ++ [a]).
Proof. intros Hl Ha; apply Forall_app; split; auto. Qed.

Lemma Forall_filter {A : Type} (P : A -> Prop) (f : A -> bool) (l : list A) :
  Forall P l -> Forall P (filter f l).
Proof.
  intros H; rewrite Forall_forall in *; intros x Hx.
  apply filter_In in Hx; apply H, Hx.
Qed.

(** X8: when the [controls] prop is not set, no control is ever reachable:
    in every reachable world the player is neither fullscreen nor muted, the
    seek bar is idle, the only command ever issued is the seek to 0 of
    [onLoad], and the only timers pending are auto-hide timers. *)
Theorem controls_off_invariant (p : Props) (w : World)
  (Hoff : controlsOff p) (H : reachable p w) :
  isFullScreen (st w) = false
  /\ mutedProp w = false
  /\ isSeekBarBusy (st w) = false
  /\ Forall (fun c => c = Seek 0%float) (commands (host w))
  /\ Forall (fun t => timerCallback t = HideControls) (pendingTimers (host w)).
Proof.
  unfold controlsOff in Hoff; revert w H.
  apply reachable_invariant; [repeat split; constructor|].
  intros e w (Hf & Hm & Hb & Hc & Ht); unfold mutedProp in *.
  assert (Hcr : controlsRendered p w = false).
  { unfold controlsRendered; rewrite Hoff, andb_false_r; reflexivity. }
  destruct e; cbn [step]; rewrite ?Hcr; cbn [andb guarded];
    try (repeat split; assumption).
  - unfold getVolumeResolved; destruct (isActive _); repeat split; assumption.
  - unfold focusVolumeResolved; destruct alive; repeat split; assumption.
  - unfold guarded; destruct (volumeListener _); repeat split; assumption.
  - unfold guarded; destruct (videoRendered w); repeat split; assumption.
  - unfold guarded, onLoad, playerRef_current.
    destruct (videoRendered w); [|repeat split; assumption].
    cbn; destruct (negb (isRetry (st w))); cbn; repeat split;
      auto using Forall_snoc.
  - unfold guarded, onReady.
    destruct (videoRendered w); [|repeat split; assumption].
    cbn; repeat split; auto using Forall_snoc.
  - unfold guarded, onProgress.
    destruct (videoRendered w), (isLoading (st w)), (negb (isSeekBarBusy (st w)));
      repeat split; assumption.
  - unfold guarded; destruct (videoRendered w); repeat split; assumption.
  - unfold guarded, onBuffer; destruct (videoRendered w);
      [destruct (_ || _)|]; repeat split; assumption.
  - unfold guarded, videoAreaClicked; rewrite Hoff.
    destruct (videoRendered w); repeat split; assumption.
  - unfold guarded; destruct (mounted (host w) && isRetry (st w));
      repeat split; assumption.
  - unfold fireTimer, findTimer.
    destruct (find _ _) as [t|] eqn:Hfind; [|repeat split; assumption].
    apply find_some in Hfind as [Hin _].
    rewrite Forall_forall in Ht; rewrite (Ht t Hin); rewrite <- Forall_forall in Ht.
    cbn; repeat split; auto using Forall_filter.
  - unfold guarded; destruct (mounted (host w)); [|repeat split; assumption].
    unfold unmount, cleanup; cbn.
    destruct (handleTruthy _); [destruct (hideControlsTimer (host w))|];
      cbn; repeat split; auto using Forall_filter.
Qed.

Lemma controls_off_invariant_witness :
  let p := withoutControls in
  let w := run p [VideoLoad {| duration := 120%float |}; VideoReadyForDisplay;
                  VideoAreaPress; MutePress; FullScreenPress] (mount p) in
  (controlsOff p /\ reachable p w)
  /\ isFullScreen (st w) = false
  /\ mutedProp w = false
  /\ commands (host w) = [Seek 0%float].
Proof.
  cbv zeta.
  assert (R : reachable withoutControls
                (run withoutControls
                   [VideoLoad {| duration := 120%float |}; VideoReadyForDisplay;
                    VideoAreaPress; MutePress; FullScreenPress]
                   (mount withoutControls)))
    by (eexists; reflexivity).
  assert (O : controlsOff withoutControls) by reflexivity.
  split; [split; [exact O | exact R]|].
  destruct (controls_off_invariant withoutControls _ O R) as (Hf & Hm & _).
  split; [exact Hf | split; [exact Hm | reflexivity]].
Defined.

(** ** Replay and the end of the media *)

Lemma controlsRendered_videoRendered (p : Props) (w : World) :
  controlsRendered p w = true -> videoRendered w = true.
Proof.
  unfold controlsRendered; intros H.
  apply andb_true_iff in H as [H _]; apply andb_true_iff in H as [H _]; exact H.
Qed.

Lemma videoRendered_attached (w : World) :
  videoRendered w = true -> playerRef_current w = true.
Proof.
  unfold videoRendered, playerRef_current; intros H.
  apply andb_true_iff in H as [_ H]; exact H.
Qed.

(** X9: replay.  With the controls on screen, the end of the media pauses
    the player at fraction 1; a press on play then resets the fraction to 0
    and seeks the decoder to 0 while the player stays paused, and the player
    resumes when the 100 ms timer armed by the press fires. *)
Theorem replay_after_end (p : Props) (w : World)
  (Hr : reachable p w) (Hc : controlsRendered p w = true) :
  let n := nextTimerId (host w) in
  let w1 := step p VideoEnd w in
  let w2 := step p PlayPausePress w1 in
  let w3 := step p (TimerFired n) w2 in
  (pausedProp w1 = true /\ videoSeek (st w1) = 1%float)
  /\ (pausedProp w2 = true /\ videoSeek (st w2) = 0%float
      /\ commands (host w2) = commands (host w) ++ [Seek 0%float])
  /\ (pausedProp w3 = false /\ videoSeek (st w3) = 0%float
      /\ findTimer n w3 = None).
Proof.
  cbv zeta.
  pose proof (controlsRendered_videoRendered p w Hc) as Hv.
  pose proof (videoRendered_attached w Hv) as Ha.
  assert (E1 : step p VideoEnd w = onEnd w).
  { cbn [step]; unfold guarded; rewrite Hv; reflexivity. }
  rewrite E1.
  assert (Hc1 : controlsRendered p (onEnd w) = true) by exact Hc.
  assert (E2 : step p PlayPausePress (onEnd w)
               = snd (setTimeout ResumePlaying 100
                        (issue (Seek 0%float) (setVideoSeek 0%float (onEnd w))))).
  { cbn [step]; unfold guarded; rewrite Hc1.
    unfold handlePlayPause; cbv zeta.
    replace (videoSeek (st (onEnd w)) =? 1)%float with true by reflexivity.
    rewrite seek_attached by exact Ha; reflexivity. }
  rewrite E2.
  split; [split; reflexivity|].
  split; [repeat split|].
  cbn [step]; unfold fireTimer, findTimer.
  cbn [host pendingTimers snd setTimeout onHost with_nextTimerId
       with_pendingTimers issue with_commands setVideoSeek onSt onEnd
       setIsPlaying nextTimerId].
  rewrite find_fresh; [|apply reachable_wf in Hr; apply Hr|reflexivity].
  cbn [timerCallback runTimerCallback].
  split; [reflexivity|]; split; [reflexivity|].
  cbn [clearTimeout setIsPlaying onSt onHost host pendingTimers
       with_pendingTimers with_nextTimerId].
  rewrite find_filter_keepOthers; reflexivity.
Qed.

Lemma replay_after_end_witness :
  let p := withControls in
  let w := run p [VideoLoad {| duration := 120%float |}; VideoReadyForDisplay]
             (mount p) in
  (reachable p w /\ controlsRendered p w = true)
  /\ pausedProp (run p [VideoEnd; PlayPausePress] w) = true
  /\ pausedProp (run p [VideoEnd; PlayPausePress; TimerFired 2] w) = false.
Proof.
  cbv zeta.
  assert (R : reachable withControls
                (run withControls
                   [VideoLoad {| duration := 120%float |}; VideoReadyForDisplay]
                   (mount withControls))) by (eexists; reflexivity).
  split; [split; [exact R | reflexivity]|].
  destruct (replay_after_end withControls _ R eq_refl)
    as (_ & (H2 & _) & (H3 & _)).
  split; [exact H2 | exact H3].
Defined.

(** X10: dragging the seek bar to its very end while playing and then
    pressing the play/pause button does not pause: the press takes the
    replay branch, so the player stays in the playing state, the fraction
    goes back to 0 and the decoder is sent to 0. *)
Theorem pause_after_drag_to_end_restarts (rest : list number) (w : World)
  (Ha : playerRef_current w = true) (Hp : isPlaying (st w) = true) :
  let w1 := onSeekBarChange (Values 1%float rest) w in
  let w2 := handlePlayPause w1 in
  videoSeek (st w1) = 1%float
  /\ pausedProp w2 = false
  /\ videoSeek (st w2) = 0%float
  /\ commands (host w2)
     = commands (host w) ++ [Seek (1 * videoDuration (st w))%float; Seek 0%float].
Proof.
  cbv zeta; unfold onSeekBarChange.
  rewrite seek_attached by exact Ha.
  unfold handlePlayPause; cbv zeta.
  replace (videoSeek (st (setVideoSeek 1%float _)) =? 1)%float
    with true by reflexivity.
  rewrite seek_attached by exact Ha.
  unfold pausedProp; cbn; rewrite Hp, <- app_assoc; repeat split.
Qed.

Lemma pause_after_drag_to_end_restarts_witness :
  let w := setVideoDuration 120%float (mount withControls) in
  (playerRef_current w = true /\ isPlaying (st w) = true)
  /\ pausedProp (handlePlayPause (onSeekBarChange (Values 1%float []) w)) = false
  /\ commands (host (handlePlayPause (onSeekBarChange (Values 1%float []) w)))
     = [Seek 120%float; Seek 0%float].
Proof.
  cbv zeta; split; [split; reflexivity|].
  destruct (pause_after_drag_to_end_restarts []
              (setVideoDuration 120%float (mount withControls)) eq_refl eq_refl)
    as (_ & Hp & _ & Hc).
  split; [exact Hp | exact Hc].
Defined.

(** ** The auto-hide timer, continued *)

(** X11: a tap on the video surface while the controls are hidden shows
    them, keeps the handle of a fresh 3-second timer in the ref, and the
    controls are hidden again when that timer fires, after which the timer
    is no longer pending. *)
Theorem tap_shows_then_timer_hides (p : Props) (w : World)
  (Hr : reachable p w)
  (Hv : videoRendered w = true)
  (Hc : truthy (controls p) = true)
  (Hs : showControls (st w) = false) :
  let n := nextTimerId (host w) in
  let w1 := step p VideoAreaPress w in
  let w2 := step p (TimerFired n) w1 in
  (showControls (st w1) = true
   /\ hideControlsTimer (host w1) = Some n
   /\ findTimer n w1
      = Some {| timerId := n; timerDelay := 3000; timerCallback := HideControls |})
  /\ (showControls (st w2) = false /\ findTimer n w2 = None).
Proof.
  cbv zeta.
  pose proof (reachable_wf p w Hr) as [_ Hids _ _].
  assert (E1 : step p VideoAreaPress w = videoAreaClicked p w).
  { cbn [step]; unfold guarded; rewrite Hv; reflexivity. }
  rewrite E1; clear E1.
  unfold videoAreaClicked; cbv zeta; rewrite Hc, Hs; cbn [negb].
  set (w0 := if handleTruthy _ then _ else _).
  assert (Hn : nextTimerId (host w0) = nextTimerId (host w)).
  { unfold w0; destruct (handleTruthy _); [|reflexivity].
    cbn; destruct (hideControlsTimer (host w)); reflexivity. }
  assert (Hp : Forall (fun t => timerId t < nextTimerId (host w))
                 (pendingTimers (host w0))).
  { unfold w0; destruct (handleTruthy _); [|exact Hids].
    cbn; destruct (hideControlsTimer (host w)); [|exact Hids].
    cbn; apply Forall_filter, Hids. }
  assert (Hs0 : showControls (st w0) = true).
  { unfold w0; destruct (handleTruthy _); [|reflexivity].
    cbn; destruct (hideControlsTimer (host w)); reflexivity. }
  cbn [setTimeout]; rewrite Hn.
  assert (Hfind : findTimer (nextTimerId (host w))
                    (setHideControlsTimer (Some (nextTimerId (host w)))
                       (onHost (fun h => with_nextTimerId (S (nextTimerId (host w)))
                          (with_pendingTimers
                             (pendingTimers h
                              ++ [{| timerId := nextTimerId (host w);
                                     timerDelay := 3000;
                                     timerCallback := HideControls |}]) h)) w0))
                  = Some {| timerId := nextTimerId (host w); timerDelay := 3000;
                            timerCallback := HideControls |}).
  { unfold findTimer; cbn; apply find_fresh; [exact Hp | reflexivity]. }
  split; [split; [exact Hs0 | split; [reflexivity | exact Hfind]]|].
  cbn [step]; unfold fireTimer; rewrite Hfind.
  cbn [timerCallback runTimerCallback]; split; [reflexivity|].
  unfold findTimer; cbn; apply find_filter_keepOthers.
Qed.

Lemma tap_shows_then_timer_hides_witness :
  let p := withControls in
  let w := mount p in
  (reachable p w /\ videoRendered w = true /\ showControls (st w) = false)
  /\ showControls (st (run p [VideoAreaPress] w)) = true
  /\ showControls (st (run p [VideoAreaPress; TimerFired 1] w)) = false.
Proof.
  cbv zeta.
  assert (R : reachable withControls (mount withControls))
    by (exists []; reflexivity).
  split; [split; [exact R | split; reflexivity]|].
  destruct (tap_shows_then_timer_hides withControls _ R eq_refl eq_refl eq_refl)
    as ((H1 & _) & (H2 & _)).
  split; [exact H1 | exact H2].
Defined.

(** X12: a touch that starts on the control surface cancels the auto-hide
    timer whose handle the ref holds: afterwards that timer is not pending
    and its firing changes nothing, so the controls stay as they are. *)
Theorem touch_start_cancels_hide (p : Props) (w : World) (id : TimerId)
  (Hr : reachable p w)
  (Hc : controlsRendered p w = true)
  (Hid : hideControlsTimer (host w) = Some id) :
  let w1 := step p ControlsTouchStart w in
  findTimer id w1 = None
  /\ step p (TimerFired id) w1 = w1
  /\ st w1 = st w.
Proof.
  cbv zeta.
  pose proof (reachable_wf p w Hr) as [_ _ Href _].
  destruct (Href id Hid) as [Hpos _].
  destruct id as [|id]; [lia|].
  assert (Hct : truthy (controls p) = true).
  { unfold controlsRendered in Hc; apply andb_true_iff in Hc as [Hc _].
    apply andb_true_iff in Hc as [_ Hc]; exact Hc. }
  assert (E : step p ControlsTouchStart w = clearTimeout (S id) w).
  { cbn [step]; unfold guarded, onTouchStart; rewrite Hc, Hid, Hct; reflexivity. }
  rewrite E.
  assert (F : findTimer (S id) (clearTimeout (S id) w) = None).
  { unfold findTimer; cbn -[Nat.eqb]; apply find_filter_keepOthers. }
  split; [exact F|]; split; [|reflexivity].
  cbn [step]; unfold fireTimer; rewrite F; reflexivity.
Qed.

Lemma touch_start_cancels_hide_witness :
  let p := withControls in
  let w := run p [VideoReadyForDisplay] (mount p) in
  (reachable p w /\ controlsRendered p w = true
   /\ hideControlsTimer (host w) = Some 1)
  /\ showControls
       (st (step p (TimerFired 1) (step p ControlsTouchStart w))) = true.
Proof.
  cbv zeta.
  assert (R : reachable withControls
                (run withControls [VideoReadyForDisplay] (mount withControls)))
    by (eexists; reflexivity).
  split; [split; [exact R | split; reflexivity]|].
  destruct (touch_start_cancels_hide withControls _ 1 R eq_refl eq_refl)
    as (_ & Hf & _).
  rewrite Hf; reflexivity.
Defined.

(** ** Seek targets *)

Lemma ltb_irrefl (x : float) : (x <? x)%float = false.
Proof.
  rewrite ltb_spec; unfold SFltb, SFcompare.
  destruct (Prim2SF x) as [s|s| |s m e]; try destruct s; cbn; auto;
    rewrite Z.compare_refl, ?Pos.compare_cont_refl; reflexivity.
Qed.

(** X13: each ten-second skip is clamped on its own side: the time
    [seekForward] sends to the decoder is never greater than the duration,
    and the time [seekBackward] sends is never less than 0. *)
Theorem seek_targets_clamped (w : World) (Ha : playerRef_current w = true) :
  (exists t, commands (host (seekForward w)) = commands (host w) ++ [Seek t]
             /\ (videoDuration (st w) <? t)%float = false)
  /\ (exists t, commands (host (seekBackward w)) = commands (host w) ++ [Seek t]
                /\ (t <? 0)%float = false).
Proof.
  split.
  - unfold seekForward; cbv zeta.
    destruct (videoDuration (st w) <? _)%float eqn:E;
      rewrite seek_attached by exact Ha; eexists; split;
      [reflexivity | apply ltb_irrefl | reflexivity | exact E].
  - unfold seekBackward; cbv zeta.
    destruct (_ <? 0)%float eqn:E;
      rewrite seek_attached by exact Ha; eexists; split;
      [reflexivity | reflexivity | reflexivity | exact E].
Qed.

Lemma seek_targets_clamped_witness :
  let w := setVideoSeek 0.5%float (setVideoDuration 12%float (mount withControls)) in
  playerRef_current w = true
  /\ (exists t, commands (host (seekForward w)) = commands (host w) ++ [Seek t]
                /\ (videoDuration (st w) <? t)%float = false)
  /\ (exists t, commands (host (seekBackward w)) = commands (host w) ++ [Seek t]
                /\ (t <? 0)%float = false).
Proof.
  cbv zeta; split; [reflexivity|].
  exact (seek_targets_clamped
           (setVideoSeek 0.5%float (setVideoDuration 12%float (mount withControls)))
           eq_refl).
Defined.

(** ** Buffering, continued *)

(** X14: the readiness test of [onBuffer] has no effect on the outcome:
    whatever [isVideoReady] is, the handler leaves the Loading flag at
    [isLoading || isBuffering] and changes nothing else.  In particular a
    buffering-end event never clears the flag. *)
Theorem onBuffer_is_or (data : OnBufferData) (w : World) :
  onBuffer data w = setIsLoading (isLoading (st w) || isBuffering data) w
  /\ (isLoading (st w) = true -> isLoading (st (onBuffer data w)) = true).
Proof.
  assert (E : onBuffer data w
              = setIsLoading (isLoading (st w) || isBuffering data) w).
  { unfold onBuffer; cbv zeta.
    destruct (isBuffering data), (isLoading (st w)) eqn:L,
      (isVideoReady (st w)); cbn [andb orb negb];
      rewrite <- ?L, ?setIsLoading_same; try reflexivity;
      rewrite L; reflexivity. }
  split; [exact E|].
  intros L; rewrite E, L; reflexivity.
Qed.

Lemma onBuffer_is_or_witness :
  let w := onProgress {| currentTime := 1%float; seekableDuration := 120%float |}
             (mount withControls) in
  isLoading (st w) = false
  /\ isLoading (st (onBuffer {| isBuffering := true |} w)) = true
  /\ isLoading (st (onBuffer {| isBuffering := false |}
                      (onBuffer {| isBuffering := true |} w))) = true.
Proof.
  cbv zeta; split; [reflexivity|]; split; [reflexivity|].
  apply (proj2 (onBuffer_is_or {| isBuffering := false |} _)); reflexivity.
Defined.

(** ** Cells written in one place only *)

(** X15: the duration changes on a load event only, and [systemVolume] on
    the resolution of the initial volume query only: every other event,
    whatever the state, leaves them as they are. *)
Theorem duration_and_systemVolume_frame (p : Props) (e : Event) (w : World) :
  (isVideoLoad e = false ->
     videoDuration (st (step p e w)) = videoDuration (st w))
  /\ (isGetVolumeResolved e = false ->
     systemVolume (st (step p e w)) = systemVolume (st w)).
Proof.
  split; intros He; step_cases e; try reflexivity; discriminate He.
Qed.

Lemma duration_and_systemVolume_frame_witness :
  let w := run withControls
             [GetVolumeResolved 0.5%float; VideoLoad {| duration := 120%float |};
              VideoReadyForDisplay] (mount withControls) in
  systemVolume (st (step withControls (VolumeChanged 0.75%float) w))
    = Some 0.5%float
  /\ videoDuration (st (step withControls SeekForwardPress w)) = 120%float.
Proof.
  cbv zeta; split.
  - rewrite (proj2 (duration_and_systemVolume_frame withControls
                      (VolumeChanged 0.75%float) _) eq_refl); reflexivity.
  - rewrite (proj1 (duration_and_systemVolume_frame withControls
                      SeekForwardPress _) eq_refl); reflexivity.
Defined.

(** ** Layout *)

Lemma lastScrollEnabled_app (a b : list NativeCall) (acc : option bool) :
  lastScrollEnabled (a ++ b) acc = lastScrollEnabled b (lastScrollEnabled a acc).
Proof.
  revert acc; induction a as [|c a IH]; cbn; intros acc; auto.
  destruct c; auto.
Qed.

Lemma lastRootStyle_app (a b : list NativeCall) (acc : option RootStyle) :
  lastRootStyle (a ++ b) acc = lastRootStyle b (lastRootStyle a acc).
Proof.
  revert acc; induction a as [|c a IH]; cbn; intros acc; auto.
  destruct c; auto.
Qed.

(** X16: a dimension event in portrait (height greater than width) sets the
    player to the reported width and to the configured height
    ([props.height ?? 300], the height it was mounted with) whatever height
    is reported, and leaves the host's scroll view, when there is one,
    scrollable. *)
Theorem portrait_layout (env : LayoutEnv) (e : ScaledSize) (l : Layout)
  (Hp : (width e <? height e)%float = true) :
  let l' := dimensionsListener env true e l in
  screenDimensions l'
    = {| screenHeight := nullish (props_height env) 300%float;
         screenWidth := width e |}
  /\ screenHeight (screenDimensions l')
     = screenHeight (screenDimensions (mountLayout env))
  /\ (scrollViewRef env = true ->
      lastScrollEnabled (nativeCalls l') None = Some true).
Proof.
  cbv zeta; unfold dimensionsListener; cbv zeta; rewrite Hp.
  split; [reflexivity|]; split; [reflexivity|].
  intros Hs; rewrite Hs; unfold callOn at 1; cbn [setScreenDimensions nativeCalls].
  rewrite lastScrollEnabled_app; reflexivity.
Qed.

Lemma portrait_layout_witness :
  let env := {| props_height := None; rootViewBgColor := None;
                androidPaddingVertical := None; rootElementRef := true;
                scrollViewRef := true; Platform_OS := "ios"%string;
                hasNotch := true; screenWidthAtLoad := 400%float |} in
  let e := {| width := 400%float; height := 800%float |} in
  (width e <? height e)%float = true
  /\ screenDimensions (dimensionsListener env true e (mountLayout env))
     = {| screenHeight := 300%float; screenWidth := 400%float |}.
Proof.
  cbv zeta; split; [reflexivity|].
  exact (proj1 (portrait_layout _ {| width := 400%float; height := 800%float |}
                  _ eq_refl)).
Defined.

(** X17: any other dimension event (landscape, a square screen, or sizes
    that do not compare) makes the player fill the reported screen, the
    width reduced by 75 exactly when the device has a notch, and, when the
    host has a scroll view, disables its scrolling and scrolls it to the
    origin. *)
Theorem landscape_layout (env : LayoutEnv) (e : ScaledSize) (l : Layout)
  (Hl : (width e <? height e)%float = false) :
  let l' := dimensionsListener env true e l in
  screenDimensions l'
    = {| screenHeight := height e;
         screenWidth := if hasNotch env then (width e - 75)%float else width e |}
  /\ (scrollViewRef env = true ->
      lastScrollEnabled (nativeCalls l') None = Some false
      /\ In (ScrollTo 0%float 0%float false) (nativeCalls l')).
Proof.
  cbv zeta; unfold dimensionsListener; cbv zeta; rewrite Hl.
  split; [reflexivity|].
  intros Hs; rewrite Hs; unfold callOn; cbn [setScreenDimensions nativeCalls].
  destruct (rootElementRef env); cbn [nativeCalls];
    rewrite ?lastScrollEnabled_app; cbn; split; try reflexivity;
    rewrite ?in_app_iff; cbn; auto 6.
Qed.

Lemma landscape_layout_witness :
  let env := {| props_height := None; rootViewBgColor := None;
                androidPaddingVertical := None; rootElementRef := true;
                scrollViewRef := true; Platform_OS := "ios"%string;
                hasNotch := true; screenWidthAtLoad := 400%float |} in
  let e := {| width := 800%float; height := 400%float |} in
  (width e <? height e)%float = false
  /\ screenDimensions (dimensionsListener env true e (mountLayout env))
     = {| screenHeight := 400%float; screenWidth := 725%float |}.
Proof.
  cbv zeta; split; [reflexivity|].
  exact (proj1 (landscape_layout
                  {| props_height := None; rootViewBgColor := None;
                     androidPaddingVertical := None; rootElementRef := true;
                     scrollViewRef := true; Platform_OS := "ios"%string;
                     hasNotch := true; screenWidthAtLoad := 400%float |}
                  {| width := 800%float; height := 400%float |} _ eq_refl)).
Defined.

(** X18: the style patched onto the root element.  With a root ref, every
    dimension event patches the root last with the configured background
    (white in portrait, black otherwise, when none is configured); the
    style carries a vertical padding on Android only:
    [androidPaddingVertical ?? 48] in portrait and 0 otherwise. *)
Theorem root_style_after_event (env : LayoutEnv) (active : bool)
  (e : ScaledSize) (l : Layout) (Hr : rootElementRef env = true) :
  let portrait := (width e <? height e)%float in
  lastRootStyle (nativeCalls (dimensionsListener env active e l)) None
    = Some {| backgroundColor :=
                nullish (rootViewBgColor env)
                        (if portrait then "#fff" else "#000")%string;
              paddingVertical :=
                if isAndroid env
                then Some (if portrait
                           then nullish (androidPaddingVertical env) 48%float
                           else 0%float)
                else None |}.
Proof.
  cbv zeta; unfold dimensionsListener; cbv zeta; rewrite Hr.
  destruct (width e <? height e)%float, (scrollViewRef env), active;
    unfold callOn; cbn [setScreenDimensions nativeCalls];
    rewrite ?lastRootStyle_app; cbn;
    destruct (isAndroid env), (rootViewBgColor env); reflexivity.
Qed.

Lemma root_style_after_event_witness :
  let env := {| props_height := None; rootViewBgColor := None;
                androidPaddingVertical := None; rootElementRef := true;
                scrollViewRef := false; Platform_OS := "android"%string;
                hasNotch := false; screenWidthAtLoad := 400%float |} in
  rootElementRef env = true
  /\ lastRootStyle
       (nativeCalls (dimensionsListener env true
                       {| width := 400%float; height := 800%float |}
                       (mountLayout env))) None
     = Some {| backgroundColor := "#fff"%string;
               paddingVertical := Some 48%float |}.
Proof.
  cbv zeta; split; [reflexivity|].
  exact (root_style_after_event
           {| props_height := None; rootViewBgColor := None;
              androidPaddingVertical := None; rootElementRef := true;
              scrollViewRef := false; Platform_OS := "android"%string;
              hasNotch := false; screenWidthAtLoad := 400%float |}
           true {| width := 400%float; height := 800%float |} _ eq_refl).
Defined.

(** X19: the liveness flag of the mount effect guards the state write only.
    A dimension event that reaches the listener after [isActive] was
    cleared leaves [screenDimensions] as it is, but makes the same calls on
    the host's root element and scroll view as a live one. *)
Theorem inactive_listener_still_patches (env : LayoutEnv) (e : ScaledSize)
    (l : Layout) :
  screenDimensions (dimensionsListener env false e l) = screenDimensions l
  /\ nativeCalls (dimensionsListener env false e l)
     = nativeCalls (dimensionsListener env true e l).
Proof.
  unfold dimensionsListener; cbv zeta.
  destruct (width e <? height e)%float, (rootElementRef env), (scrollViewRef env);
    split; reflexivity.
Qed.

(** X20: after unmount the dimension subscription is gone: in a reachable
    unmounted world a dimension event changes neither the player size nor
    anything on the host. *)
Theorem unmounted_layout_inert (p : Props) (env : LayoutEnv) (e : ScaledSize)
  (w : World) (l : Layout)
  (H : reachable p w) (Hu : mounted (host w) = false) :
  dimensionsChanged env e w l = l.
Proof.
  destruct (unmounted_flags p w H Hu) as (_ & _ & Hd).
  unfold dimensionsChanged; rewrite Hd; reflexivity.
Qed.

Lemma unmounted_layout_inert_witness :
  let w := run withControls [VideoReadyForDisplay; Unmount] (mount withControls) in
  let env := {| props_height := None; rootViewBgColor := None;
                androidPaddingVertical := None; rootElementRef := true;
                scrollViewRef := true; Platform_OS := "ios"%string;
                hasNotch := true; screenWidthAtLoad := 400%float |} in
  (reachable withControls w /\ mounted (host w) = false)
  /\ dimensionsChanged env {| width := 800%float; height := 400%float |} w
       (mountLayout env) = mountLayout env.
Proof.
  cbv zeta.
  assert (R : reachable withControls
                (run withControls [VideoReadyForDisplay; Unmount]
                   (mount withControls))) by (eexists; reflexivity).
  split; [split; [exact R | reflexivity]|].
  exact (unmounted_layout_inert withControls _ _ _ _ R eq_refl).
Defined.

(** ** The time formatter *)

Lemma allFrom_spec (f : Z -> bool) (fuel : nat) (z0 : Z) :
  allFrom f fuel z0 = true ->
  forall z, (z0 <= z < z0 + Z.of_nat fuel)%Z -> f z = true.
Proof.
  revert z0; induction fuel as [|k IH]; intros z0 H z Hz; [lia|].
  cbn [allFrom] in H; apply andb_true_iff in H as [H0 H1].
  destruct (Z.eq_dec z z0) as [->|Hne]; [exact H0|].
  apply (IH (z0 + 1)%Z H1); lia.
Qed.

Lemma agrees_eq (t : option String.string) (s : String.string) :
  agrees t s = true -> t = Some s.
Proof.
  destruct t as [x|]; cbn; [|discriminate].
  intros H; apply String.eqb_eq in H; congruence.
Qed.

Lemma msToTime_whole_seconds_checked :
  allFrom (fun n => agrees (msToTime (Z2float n)) (wholeSecondsText n))
          (Z.to_nat 7200) 0 = true.
Proof. vm_compute; reflexivity. Qed.

Lemma msToTime_half_seconds_checked :
  allFrom (fun n => agrees (msToTime (Z2float n + 0.5)%float) (halfSecondText n))
          (Z.to_nat 3600) 0 = true.
Proof. vm_compute; reflexivity. Qed.

(** X21: on every whole number of seconds below two hours the float
    computation of [msToTime] agrees with integer division: minutes and
    seconds are shown with two digits, and from one hour on an hours field
    is put in front while the minutes field keeps counting from the start
    (it is not reduced modulo 60, so 3661 seconds read 01:61:01). *)
Theorem msToTime_whole_seconds (n : Z) (H : (0 <= n < 7200)%Z) :
  msToTime (Z2float n) = Some (wholeSecondsText n).
Proof.
  apply agrees_eq.
  apply (allFrom_spec _ _ _ msToTime_whole_seconds_checked n).
  change (Z.of_nat (Z.to_nat 7200)) with 7200%Z; lia.
Qed.

Lemma msToTime_whole_seconds_witness :
  (0 <= 3661 < 7200)%Z
  /\ msToTime 3661%float = Some "01:61:01"%string.
Proof.
  split; [lia|].
  apply (msToTime_whole_seconds 3661); lia.
Defined.

(** X22: half a second past a whole second is rounded up in the seconds
    field and nothing is carried: for every whole n below one hour,
    [msToTime (n + 0.5)] shows the minutes of n and the seconds of n plus
    one, so that the last half second of a minute reads 60 (59.5 seconds
    read 00:60). *)
Theorem msToTime_half_seconds (n : Z) (H : (0 <= n < 3600)%Z) :
  msToTime (Z2float n + 0.5)%float = Some (halfSecondText n).
Proof.
  apply agrees_eq.
  apply (allFrom_spec _ _ _ msToTime_half_seconds_checked n).
  change (Z.of_nat (Z.to_nat 3600)) with 3600%Z; lia.
Qed.

Lemma msToTime_half_seconds_witness :
  (0 <= 59 < 3600)%Z
  /\ msToTime 59.5%float = Some "00:60"%string.
Proof.
  split; [lia|].
  apply (msToTime_half_seconds 59); lia.
Defined.

Lemma is_nan_eq (x : float) : is_nan x = true -> x = nan.
Proof.
  unfold is_nan; rewrite FloatAxioms.eqb_spec; intros H.
  rewrite <- (SF2Prim_Prim2SF x).
  destruct (Prim2SF x) as [s|s| |s m e]; [| |reflexivity|];
    exfalso; revert H; unfold SFeqb, SFcompare; destruct s;
    rewrite ?Z.compare_refl, ?Pos.compare_cont_refl; discriminate.
Qed.

Lemma nan_mul (d : float) : (nan * d)%float = nan.
Proof.
  apply Prim2SF_inj; rewrite mul_spec.
  change (Prim2SF nan) with S754_nan.
  destruct (Prim2SF d); reflexivity.
Qed.

(** X23: a seek fraction that is NaN reaches the screen: whatever the
    duration, the position label of the control bar then reads NaN.  A
    progress event with [currentTime] 0 and [seekableDuration] 0, received
    while the seek bar is idle, puts the component in that state. *)
Theorem nan_fraction_displayed (w : World)
  (H : is_nan (videoSeek (st w)) = true) :
  positionText w = Some "NaN"%string.
Proof.
  unfold positionText; rewrite (is_nan_eq _ H), nan_mul; reflexivity.
Qed.

Lemma nan_fraction_displayed_witness :
  let w := run withControls
             [VideoLoad {| duration := 120%float |}; VideoReadyForDisplay;
              VideoProgress {| currentTime := 0%float;
                               seekableDuration := 0%float |}]
             (mount withControls) in
  is_nan (videoSeek (st w)) = true
  /\ positionText w = Some "NaN"%string
  /\ durationText w = Some "02:00"%string.
Proof.
  cbv zeta; split; [reflexivity|].
  split; [|reflexivity].
  apply nan_fraction_displayed; reflexivity.
Defined.
